(** * The tree-care journal of [HW_1/robots.py]

    A shallow embedding of [DBHelper], [Journal], [WaterRobot] and
    [CutRobot], together with the two driver scripts, and the properties
    of the journal audits and of the watering cycle.

    Conventions of the embedding.
    - A naive [datetime] is the number of microseconds since
      1970-01-01T00:00:00 (a [Z]); a [timedelta] is a number of
      microseconds.  The year range check of Python's [datetime] is not
      modelled.
    - The database stores dates with millisecond precision: the driver
      drops the sub-millisecond part of every [datetime] it encodes.
    - Amounts of water are exact rationals ([Q]); rounding of binary
      floating point is not modelled.  Branch counts are integers.
    - An [ObjectId] is an integer handed out by an increasing counter, so
      that the [_id] order of the documents one client writes is their
      insertion order. *)

From Stdlib Require Import ZArith QArith Qminmax Lia List Ascii String Sorting.Sorted.
From stdpp Require Import gmap strings list fin_maps.

Close Scope Q_scope.
Local Open Scope Z_scope.

(** ** Calendar arithmetic *)

Module Calendar.

Definition us_per_ms : Z := 1000.
Definition us_per_second : Z := 1000000.
Definition us_per_day : Z := 86400000000.

(** Day number (days since 1970-01-01) of a proleptic Gregorian date. *)
Definition days_from_civil (y m d : Z) : Z :=
  let y' := if m <=? 2 then y - 1 else y in
  let era := y' / 400 in
  let yoe := y' mod 400 in
  let mp := if m <=? 2 then m + 9 else m - 3 in
  let doy := (153 * mp + 2) / 5 + d - 1 in
  let doe := yoe * 365 + yoe / 4 - yoe / 100 + doy in
  era * 146097 + doe - 719468.

(** Year, month and day of a day number. *)
Definition civil_from_days (z : Z) : Z * Z * Z :=
  let z' := z + 719468 in
  let era := z' / 146097 in
  let doe := z' mod 146097 in
  let yoe := (doe - doe / 1460 + doe / 36524 - doe / 146096) / 365 in
  let doy := doe - (365 * yoe + yoe / 4 - yoe / 100) in
  let mp := (5 * doy + 2) / 153 in
  let d := doy - (153 * mp + 2) / 5 + 1 in
  let m := if mp <? 10 then mp + 3 else mp - 9 in
  let y := yoe + era * 400 in
  (if m <=? 2 then y + 1 else y, m, d).

End Calendar.

(** ** Python values: dates, list indexing, ranges, exceptions *)

Module Py.
Import Calendar.

Definition datetime : Type := Z.
Definition timedelta : Type := Z.

(** [timedelta(n)]: a span of [n] days. *)
Definition timedelta_days (n : Z) : timedelta := n * us_per_day.

(** [td.days]: the whole days of a span (rounded towards minus infinity). *)
Definition days (td : timedelta) : Z := td / us_per_day.

(** [t.replace(hour=0, minute=0, second=0)]: the date of [t] is kept and
    so is its [microsecond] field, which [replace] was not asked to reset. *)
Definition replace_hms_zero (t : datetime) : datetime :=
  (t / us_per_day) * us_per_day + t mod us_per_second.

(** Midnight of the calendar day of [t]. *)
Definition floor_day (t : datetime) : datetime :=
  (t / us_per_day) * us_per_day.

(** [t.weekday()]: Monday is 0; 1970-01-01 was a Thursday. *)
Definition weekday (t : datetime) : Z := (t / us_per_day + 3) mod 7.

(** A date and a time of day, for writing concrete instants. *)
Definition mk_datetime (y m d hh mm ss us : Z) : datetime :=
  days_from_civil y m d * us_per_day
  + ((hh * 60 + mm) * 60 + ss) * us_per_second + us.

Inductive PyExn : Type :=
| IndexError
| ValueError (msg : string)
| NotEnoughWaterError (water_level required : Q).

Inductive result (A : Type) : Type :=
| Ok (a : A)
| Raise (e : PyExn).
Arguments Ok {A} a.
Arguments Raise {A} e.

(** Sequencing: an exception ends the computation. *)
#[export] Instance result_ret : MRet result := fun A a => Ok a.
#[export] Instance result_bind : MBind result := fun A B k r =>
  match r with
  | Ok a => k a
  | Raise e => Raise e
  end.

(** [l[i]] with Python's negative indices; out of range raises. *)
Definition py_index {A} (l : list A) (i : Z) : result A :=
  let n := Z.of_nat (length l) in
  let j := if i <? 0 then i + n else i in
  if (j <? 0) || (n <=? j) then Raise IndexError
  else match nth_error l (Z.to_nat j) with
       | Some x => Ok x
       | None => Raise IndexError
       end.

(** [range(start, stop)]. *)
Definition range (start stop : Z) : list Z :=
  List.map (fun k => start + Z.of_nat k) (seq 0 (Z.to_nat (stop - start))).

(** [enumerate(l)]. *)
Definition enumerate {A} (l : list A) : list (nat * A) :=
  combine (seq 0 (length l)) l.

(** A stable sort by an integer key, as [sorted(l, key=...)] is. *)
Fixpoint insert_by {A} (key : A -> Z) (x : A) (l : list A) : list A :=
  match l with
  | [] => [x]
  | y :: l' => if key x <=? key y then x :: l else y :: insert_by key x l'
  end.

Definition sort_by {A} (key : A -> Z) (l : list A) : list A :=
  List.fold_right (insert_by key) [] l.

(** Truth value of a number: zero is false. *)
Definition truthy (q : Q) : bool := negb (Qeq_bool q 0).

End Py.

(** ** The document store *)

Module Mongo.
Import Calendar Py.

Definition ObjectId : Type := Z.

(** A robot identifier: the dataclass announces an [int], the scripts
    pass strings. *)
Inductive IdNumber : Type :=
| IdInt (n : Z)
| IdStr (s : string).

(** The dictionary a robot hands to the journal. *)
Record Data : Type := mkData {
  robot_id : IdNumber;
  timestamp : datetime;
  water_amount : option Q;
  number_of_branches : option Q
}.

(** A stored document: the data and the [_id] the driver added. *)
Record Doc : Type := mkDoc {
  _id : ObjectId;
  fields : Data
}.

Definition doc_timestamp (d : Doc) : datetime := timestamp (fields d).
Definition doc_water_amount (d : Doc) : option Q := water_amount (fields d).
Definition doc_number_of_branches (d : Doc) : option Q :=
  number_of_branches (fields d).

(** The database [BinaryTreeJournal]: its collections by name, each in
    insertion order, and the next [ObjectId] of the client. *)
Record Database : Type := mkDatabase {
  colls : gmap string (list Doc);
  next_oid : ObjectId
}.

(** The driver encodes a [datetime] in whole milliseconds. *)
Definition bson_datetime (t : datetime) : datetime :=
  (t / us_per_ms) * us_per_ms.

Definition bson (data : Data) : Data :=
  mkData (robot_id data) (bson_datetime (timestamp data))
         (water_amount data) (number_of_branches data).

(** [db[name].find()]: a collection never written to has no document. *)
Definition find (db : Database) (name : string) : list Doc :=
  default [] (colls db !! name).

(** [db.list_collection_names()]: the collections that exist. *)
Definition list_collection_names (db : Database) : list string :=
  (map_to_list (colls db)).*1.

(** [db[name].insert_one(data)]: creates the collection when needed. *)
Definition insert_one (name : string) (data : Data) (db : Database) : Database :=
  let doc := mkDoc (next_oid db) (bson data) in
  mkDatabase (<[name := find db name ++ [doc]]> (colls db)) (next_oid db + 1).

(** Sorting directions of [cursor.sort(field, direction)].  Documents
    with equal keys are kept in their natural order. *)
Definition sort_asc (key : Doc -> Z) (docs : list Doc) : list Doc :=
  sort_by key docs.
Definition sort_desc (key : Doc -> Z) (docs : list Doc) : list Doc :=
  sort_by (fun d => - key d) docs.

(** Query operators on dates; no operator means equality. *)
Inductive Operator : Type := op_gte | op_gt | op_lte | op_lt.

Definition matches (operator : option Operator) (field value : datetime) : bool :=
  match operator with
  | None => field =? value
  | Some op_gte => value <=? field
  | Some op_gt => value <? field
  | Some op_lte => field <=? value
  | Some op_lt => field <? value
  end.

(** The accumulator [$sum]: a missing field counts for nothing. *)
Definition acc_sum (total : Q) (x : option Q) : Q :=
  match x with
  | Some q => (total + q)%Q
  | None => total
  end.

Definition sum_field (field : Doc -> option Q) (docs : list Doc) : Q :=
  List.fold_left (fun total d => acc_sum total (field d)) docs 0%Q.

(** The stage [$group] with a sum: one row per key, rows in the order in
    which their keys are first met. *)
Fixpoint group_add {K} (eqb : K -> K -> bool) (k : K) (x : option Q)
         (rows : list (K * Q)) : list (K * Q) :=
  match rows with
  | [] => [(k, acc_sum 0%Q x)]
  | (k', total) :: rest =>
      if eqb k k' then (k', acc_sum total x) :: rest
      else (k', total) :: group_add eqb k x rest
  end.

Definition group_sum {K} (eqb : K -> K -> bool) (key : Doc -> K)
           (field : Doc -> option Q) (docs : list Doc) : list (K * Q) :=
  List.fold_left (fun rows d => group_add eqb (key d) (field d) rows) docs [].

(** [$dateToParts], [$dateFromParts] and [$week]. *)
Definition dateToParts (t : datetime) : Z * Z * Z :=
  civil_from_days (t / us_per_day).

Definition dateFromParts (parts : Z * Z * Z) : datetime :=
  let '(y, m, d) := parts in days_from_civil y m d * us_per_day.

Definition parts_eqb (p q : Z * Z * Z) : bool :=
  let '(y1, m1, d1) := p in
  let '(y2, m2, d2) := q in
  (y1 =? y2) && (m1 =? m2) && (d1 =? d2).

(** Week of the year, 0 to 53: weeks begin on Sunday and the days
    before the first Sunday of the year are in week 0. *)
Definition week (t : datetime) : Z :=
  let day := t / us_per_day in
  let '(y, _, _) := civil_from_days day in
  let yday := day - days_from_civil y 1 1 in
  let wday := (day + 4) mod 7 in
  (yday + 7 - wday) / 7.

End Mongo.

(** ** [DBHelper]: the aggregation pipelines *)

Module DBHelper.
Import Py Mongo.

(** [sum_by_field_value]: [$match] on a date field, then [$group] of all
    matching documents under the single key [None]; no matching document
    gives no row, and then the sum is 0.  A field name is given as the
    projection that reads it. *)
Definition sum_by_field_value (collection : list Doc)
           (field_to_match : Doc -> datetime) (value : datetime)
           (field_to_sum : Doc -> option Q) (operator : option Operator) : Q :=
  let matched :=
    List.filter
      (fun d => matches operator (field_to_match d) (bson_datetime value))
      collection in
  let result :=
    group_sum (fun _ _ : unit => true) (fun _ => tt) field_to_sum matched in
  match result with
  | (_, total) :: _ => total
  | [] => 0%Q
  end.

(** A row of [sum_field_by_date]. *)
Record DayRow : Type := mkDayRow {
  day_id : Z * Z * Z;
  day_total : Q;
  day_date : datetime
}.

(** [sum_field_by_date]: the [$sort] stage names the fields [year],
    [month] and [day], which the grouped rows do not have (theirs are
    under [_id]), so that it compares all rows equal and keeps their
    order. *)
Definition sum_field_by_date (collection : list Doc)
           (field : Doc -> option Q) (timestamp_field : Doc -> datetime)
  : list DayRow :=
  let grouped :=
    group_sum parts_eqb (fun d => dateToParts (timestamp_field d))
              field collection in
  List.map (fun '(parts, total) => mkDayRow parts total (dateFromParts parts))
           grouped.

(** A row of [sum_field_by_week]. *)
Record WeekRow : Type := mkWeekRow {
  week_id : Z;
  week_total : Q
}.

(** [sum_field_by_week]: here too the [$sort] stage names a field,
    [week], that no row has. *)
Definition sum_field_by_week (collection : list Doc)
           (field : Doc -> option Q) (timestamp_field : Doc -> datetime)
  : list WeekRow :=
  let grouped :=
    group_sum Z.eqb (fun d => week (timestamp_field d)) field collection in
  List.map (fun '(w, total) => mkWeekRow w total) grouped.

End DBHelper.

(** ** Robots *)

Module Robots.
Import Py Mongo.

Record Robot : Type := mkRobot { _id_number : IdNumber }.

Record WaterRobot : Type := mkWaterRobot {
  water_base : Robot;
  _volume : Q;
  _water_level : Q
}.

Record CutRobot : Type := mkCutRobot { cut_base : Robot }.

(** [WaterRobot(id_number, volume)]: the water level defaults to 0. *)
Definition WaterRobot_new (id_number : IdNumber) (volume : Q) : WaterRobot :=
  mkWaterRobot (mkRobot id_number) volume 0%Q.

Definition CutRobot_new (id_number : IdNumber) : CutRobot :=
  mkCutRobot (mkRobot id_number).

(** A robot of any of the three classes. *)
Inductive AnyRobot : Type :=
| BaseRobot (r : Robot)
| AWaterRobot (r : WaterRobot)
| ACutRobot (r : CutRobot).

Definition isinstance_CutRobot (robot : AnyRobot) : bool :=
  match robot with
  | ACutRobot _ => true
  | _ => false
  end.

Definition tank_volume (self : WaterRobot) : Q := _volume self.
Definition water_level (self : WaterRobot) : Q := _water_level self.

Definition refill_tank (self : WaterRobot) : WaterRobot :=
  mkWaterRobot (water_base self) (_volume self) (_volume self).

End Robots.

(** ** The process state: the database and what was printed *)

Module World.
Import Mongo.

Record World : Type := mkWorld {
  db : Database;
  stdout : list string
}.

Definition print (line : string) (w : World) : World :=
  mkWorld (db w) (stdout w ++ [line]).

Definition with_db (f : Database -> Database) (w : World) : World :=
  mkWorld (f (db w)) (stdout w).

Definition empty_db : Database := mkDatabase ∅ 0.
Definition empty_world : World := mkWorld empty_db [].

End World.

(** ** [DailyData] and [WeeklyData] *)

Module DailyData.
Record t : Type := mk { date : Py.datetime; amount : Q }.
End DailyData.

Module WeeklyData.
Record t : Type := mk { week_number : Z; amount : Q }.
End WeeklyData.

(** ** [Journal] *)

Module Journal.
Import Py Mongo DBHelper Robots World.

Record t : Type := mk {
  cut_journal : string;
  water_journal : string;
  stored_actions : list string;
  max_water : Q;
  min_water : Q;
  max_branches : Q;
  min_branches : Q
}.

(** [Journal(mongo_client)]. *)
Definition init : t :=
  mk "CutJournal" "WaterJournal" ["cut"; "water"]%string 2%Q 1%Q 8%Q 4%Q.

(** [update]: the collection is chosen by the class of the robot. *)
Definition update (self : t) (robot : AnyRobot) (data : Data) (w : World)
  : World :=
  let target_collection :=
    if isinstance_CutRobot robot then cut_journal self
    else water_journal self in
  with_db (insert_one target_collection data) w.

(** [get_required_amount_of_water]; [now] is what [datetime.today()]
    returns at the call. *)
Definition get_required_amount_of_water (self : t) (now : datetime)
           (w : World) : Q :=
  let today := replace_hms_zero now in
  let todays_water_amount :=
    sum_by_field_value (find (db w) (water_journal self))
                       doc_timestamp today doc_water_amount (Some op_gte) in
  if Qle_bool (max_water self) todays_water_amount then 0%Q
  else (max_water self - todays_water_amount)%Q.

Definition get_number_of_branches_to_cut (self : t) (now : datetime)
           (w : World) : Q :=
  let today := replace_hms_zero now in
  let monday_date := today - timedelta_days (weekday today) in
  let weeks_branches_amount :=
    sum_by_field_value (find (db w) (cut_journal self))
                       doc_timestamp monday_date doc_number_of_branches
                       (Some op_gte) in
  if Qle_bool (max_branches self) weeks_branches_amount then 0%Q
  else (max_branches self - weeks_branches_amount)%Q.

(** Equality of documents, field by field; numbers by value. *)
Definition id_number_eqb (a b : IdNumber) : bool :=
  match a, b with
  | IdInt m, IdInt n => m =? n
  | IdStr s, IdStr u => String.eqb s u
  | _, _ => false
  end.

Definition number_eqb (a b : option Q) : bool :=
  match a, b with
  | Some p, Some q => Qeq_bool p q
  | None, None => true
  | _, _ => false
  end.

Definition doc_eqb (a b : Doc) : bool :=
  (_id a =? _id b)
  && id_number_eqb (robot_id (fields a)) (robot_id (fields b))
  && (doc_timestamp a =? doc_timestamp b)
  && number_eqb (doc_water_amount a) (doc_water_amount b)
  && number_eqb (doc_number_of_branches a) (doc_number_of_branches b).

Fixpoint docs_eqb (l1 l2 : list Doc) : bool :=
  match l1, l2 with
  | [], [] => true
  | a :: l1', b :: l2' => doc_eqb a b && docs_eqb l1' l2'
  | _, _ => false
  end.

(** The inner loop of [get_ordering_errors]: for every index [i] of
    [id_sort_res[:-1]], the [_id] of entry [i] is appended to the list of
    the collection when its timestamp exceeds that of entry [i + 1]. *)
Definition flag_inversions (collection : string) (id_sort_res : list Doc)
           (ordering_errors : gmap string (list ObjectId))
  : gmap string (list ObjectId) :=
  List.fold_left
    (fun errors '(i, entry) =>
       match id_sort_res !! i, id_sort_res !! S i with
       | Some a, Some b =>
           if doc_timestamp b <? doc_timestamp a
           then alter (fun l => l ++ [_id entry]) collection errors
           else errors
       | _, _ => errors
       end)
    (enumerate (removelast id_sort_res)) ordering_errors.

Definition get_ordering_errors (self : t) (w : World)
  : gmap string (list ObjectId) :=
  let collections := list_collection_names (db w) in
  let ordering_errors : gmap string (list ObjectId) :=
    list_to_map (List.map (fun collection => (collection, [])) collections) in
  List.fold_left
    (fun errors collection =>
       let id_sort_res := sort_asc _id (find (db w) collection) in
       let time_sort_res := sort_asc doc_timestamp (find (db w) collection) in
       if negb (docs_eqb id_sort_res time_sort_res)
       then flag_inversions collection id_sort_res errors
       else errors)
    collections ordering_errors.

(** [not (lo <= a <= hi)]. *)
Definition out_of_range (lo hi a : Q) : bool :=
  negb (Qle_bool lo a && Qle_bool a hi).

(** The daily totals of [get_water_errors] after [sorted]: the value of
    [existing_data] before the loop. *)
Definition existing_daily_data (self : t) (w : World) : list DailyData.t :=
  let daily_water_data :=
    sum_field_by_date (find (db w) (water_journal self))
                      doc_water_amount doc_timestamp in
  let existing_data :=
    List.map (fun day => DailyData.mk (day_date day) (day_total day))
             daily_water_data in
  sort_by DailyData.date existing_data.

(** The daily totals once the missing days have been appended: the
    value of [existing_data] after the loop. *)
Definition water_daily_data (self : t) (w : World)
  : result (list DailyData.t) :=
  let existing_data := existing_daily_data self w in
  let existing_dates := List.map DailyData.date existing_data in
  start ← py_index existing_dates 0;
  stop ← py_index existing_dates (-1);
  let total_days := days (stop - start) in
  mret (List.fold_left
          (fun data i =>
             let next_date := start + timedelta_days i in
             if negb (existsb (Z.eqb next_date) existing_dates)
             then data ++ [DailyData.mk next_date 0%Q]
             else data)
          (range 0 total_days) existing_data).

Definition get_water_errors (self : t) (w : World)
  : result (list DailyData.t) :=
  existing_data ← water_daily_data self w;
  mret (List.filter
          (fun day =>
             out_of_range (min_water self) (max_water self)
                          (DailyData.amount day))
          existing_data).

(** The weekly totals of [get_cut_errors] after [sorted]: the value of
    [week_data] before the loop. *)
Definition existing_week_data (self : t) (w : World) : list WeeklyData.t :=
  let res :=
    sum_field_by_week (find (db w) (cut_journal self))
                      doc_number_of_branches doc_timestamp in
  let week_data :=
    List.map (fun wk => WeeklyData.mk (week_id wk) (week_total wk)) res in
  sort_by WeeklyData.week_number week_data.

(** The weekly totals once the missing weeks have been appended: the
    value of [week_data] after the loop. *)
Definition cut_week_data (self : t) (w : World)
  : result (list WeeklyData.t) :=
  let week_data := existing_week_data self w in
  let existing_weeks := List.map WeeklyData.week_number week_data in
  start ← py_index week_data 0;
  stop ← py_index week_data (-1);
  mret (List.fold_left
          (fun data week_number =>
             if negb (existsb (Z.eqb week_number) existing_weeks)
             then data ++ [WeeklyData.mk week_number 0%Q]
             else data)
          (range (WeeklyData.week_number start) (WeeklyData.week_number stop))
          week_data).

Definition get_cut_errors (self : t) (w : World)
  : result (list WeeklyData.t) :=
  week_data ← cut_week_data self w;
  mret (List.filter
          (fun wk =>
             out_of_range (min_branches self) (max_branches self)
                          (WeeklyData.amount wk))
          week_data).

Definition newline : string := String "010"%char EmptyString.

Section Printing.

(** [str(doc)], the text of a document. *)
Variable str : Doc -> string.

Definition print_last_10_records (self : t) (action : string) (w : World)
  : result unit * World :=
  if negb (existsb (String.eqb action) (stored_actions self)) then
    (Raise (ValueError
              (String.append "Unknown action. Should be one of "
                             (String.concat ", " (stored_actions self)))),
     w)
  else
    let collection :=
      if String.eqb action "cut" then cut_journal self
      else water_journal self in
    let last_10_documents :=
      firstn 10 (sort_desc _id (find (db w) collection)) in
    let str_res := String.concat newline (List.map str last_10_documents) in
    (Ok tt, print str_res w).

End Printing.

End Journal.

(** ** The care actions and the two scripts *)

Module WaterRobot.
Import Py Mongo Robots World.

Definition id_number (self : Robots.WaterRobot) : IdNumber :=
  _id_number (water_base self).

(** [water_tree]: [today] and [now] are the two readings of the clock,
    the first in [get_required_amount_of_water], the second for the
    timestamp of the entry.  The result carries the robot and the world
    as the call leaves them. *)
Definition water_tree (self : Robots.WaterRobot) (journal : Journal.t)
           (today now : datetime) (w : World)
  : result unit * Robots.WaterRobot * World :=
  let required_volume := Journal.get_required_amount_of_water journal today w in
  if truthy required_volume then
    if Qle_bool required_volume (_water_level self) then
      let self :=
        mkWaterRobot (water_base self) (_volume self)
                     (_water_level self - required_volume)%Q in
      let update_data :=
        mkData (id_number self) now (Some required_volume) None in
      (Ok tt, self, Journal.update journal (AWaterRobot self) update_data w)
    else
      (Raise (NotEnoughWaterError (water_level self) required_volume), self, w)
  else (Ok tt, self, print "Tree is already watered" w).

End WaterRobot.

Module CutRobot.
Import Py Mongo Robots World.

Definition id_number (self : Robots.CutRobot) : IdNumber :=
  _id_number (cut_base self).

Definition cut_branches (self : Robots.CutRobot) (journal : Journal.t)
           (today now : datetime) (w : World) : World :=
  let branches_to_cut := Journal.get_number_of_branches_to_cut journal today w in
  if truthy branches_to_cut then
    let update_data :=
      mkData (id_number self) now None (Some branches_to_cut) in
    Journal.update journal (ACutRobot self) update_data w
  else print "No branches to cut" w.

End CutRobot.

Module Scripts.
Import Py Mongo Robots World.

(** [watering_script.py]: one watering; when the tank does not hold
    enough, one refill and a second watering, whose exceptions are not
    caught. *)
Definition watering_script (today1 now1 today2 now2 : datetime) (w : World)
  : result unit * Robots.WaterRobot * World :=
  let water_robot := WaterRobot_new (IdStr "w1") 5%Q in
  let journal := Journal.init in
  match WaterRobot.water_tree water_robot journal today1 now1 w with
  | (Raise (NotEnoughWaterError _ _), water_robot, w) =>
      let water_robot := refill_tank water_robot in
      WaterRobot.water_tree water_robot journal today2 now2 w
  | outcome => outcome
  end.

(** [cutting_script.py]. *)
Definition cutting_script (today now : datetime) (w : World) : World :=
  let cut_robot := CutRobot_new (IdStr "c1") in
  let journal := Journal.init in
  CutRobot.cut_branches cut_robot journal today now w.

End Scripts.

(** ** The [tank_volume] setter *)

Module TankVolume.
Import Py Robots.





End TankVolume.

(** ** Auxiliary definitions

    Pure readings of the loops of the audits, and the orders and totals
    in which their properties are stated. *)

Module Derived.
Import Calendar Py Mongo DBHelper World.

(** Orders on the records of a list, by an integer key. *)
Definition key_le {A} (key : A -> Z) (a b : A) : Prop := key a <= key b.
Definition key_lt {A} (key : A -> Z) (a b : A) : Prop := key a < key b.

(** One step of [$group]. *)
Definition group_step {K D} (eqb : K -> K -> bool) (key : D -> K)
           (field : D -> option Q) (rows : list (K * Q)) (d : D)
  : list (K * Q) :=
  group_add eqb (key d) (field d) rows.

(** The sum of the field over the documents of one key. *)
Definition total_of {K D} (eqb : K -> K -> bool) (key : D -> K)
           (field : D -> option Q) (k : K) (docs : list D) (t0 : Q) : Q :=
  List.fold_left (fun total d => acc_sum total (field d))
                 (List.filter (fun d => eqb (key d) k) docs) t0.

(** The day number and the week number of a document. *)
Definition day_of (d : Doc) : Z := doc_timestamp d / us_per_day.
Definition week_of (d : Doc) : Z := week (doc_timestamp d).

(** The gap entries that a loop over [indices] appends. *)
Definition gaps {E} (mk : Z -> E) (at_index : Z -> Z) (existing : list Z)
           (indices : list Z) : list E :=
  List.map (fun i => mk (at_index i))
           (List.filter
              (fun i => negb (existsb (Z.eqb (at_index i)) existing))
              indices).

(** The gap days appended after [first :: rest]. *)
Definition daily_gaps (first : DailyData.t) (rest : list DailyData.t)
  : list DailyData.t :=
  let start := DailyData.date first in
  let stop := DailyData.date (List.last (first :: rest) first) in
  gaps (fun x => DailyData.mk x 0%Q) (fun i => start + timedelta_days i)
       (List.map DailyData.date (first :: rest))
       (range 0 (days (stop - start))).

(** The gap weeks appended after [first :: rest]. *)
Definition weekly_gaps (first : WeeklyData.t) (rest : list WeeklyData.t)
  : list WeeklyData.t :=
  let stop := List.last (first :: rest) first in
  gaps (fun x => WeeklyData.mk x 0%Q) (fun week_number => week_number)
       (List.map WeeklyData.week_number (first :: rest))
       (range (WeeklyData.week_number first) (WeeklyData.week_number stop)).

(** The identifiers that the inner loop flags, as a list. *)
Definition flag_step (id_sort_res : list Doc) (errors : list ObjectId)
           (ie : nat * Doc) : list ObjectId :=
  let '(i, entry) := ie in
  match id_sort_res !! i, id_sort_res !! S i with
  | Some a, Some b =>
      if doc_timestamp b <? doc_timestamp a then errors ++ [_id entry]
      else errors
  | _, _ => errors
  end.

Definition flagged (id_sort_res : list Doc) : list ObjectId :=
  List.fold_left (flag_step id_sort_res)
                 (enumerate (removelast id_sort_res)) [].

(** The same identifiers, read off the adjacent pairs. *)
Fixpoint inversions (l : list Doc) : list ObjectId :=
  match l with
  | a :: (b :: _) as tl =>
      if doc_timestamp b <? doc_timestamp a then _id a :: inversions tl
      else inversions tl
  | _ => []
  end.

(** What the audit reports for one collection. *)
Definition ordering_errors_of (docs : list Doc) : list ObjectId :=
  let id_sort_res := sort_asc _id docs in
  let time_sort_res := sort_asc doc_timestamp docs in
  if negb (Journal.docs_eqb id_sort_res time_sort_res)
  then flagged id_sort_res else [].

End Derived.

(** ** The specification's own formulations

    Definitions that follow the words of the specification, to be compared
    with the code. *)

Module Spec.
Import Py Mongo Robots World.

(** [remainingWater]: the daily maximum less the water of the entries
    stamped at or after the start of the calendar day of the reading,
    never below 0. *)
Definition remainingWater (journal : Journal.t) (journalReadAt : datetime)
           (w : World) : Q :=
  let today := floor_day journalReadAt in
  let used :=
    sum_field doc_water_amount
              (List.filter (fun d => today <=? doc_timestamp d)
                           (find (db w) (Journal.water_journal journal))) in
  Qmax 0 (Journal.max_water journal - used).

(** The outcome that the end-to-end scenario expects: exactly one
    stored entry, of [water_amount] 2, and a tank level of 3. *)
Definition one_entry_of_2_and_level_3
           (outcome : result unit * Robots.WaterRobot * World) : Prop :=
  let '(res, robot, w) := outcome in
  res = Ok tt
  ∧ _water_level robot = 3%Q
  ∧ (∃ doc, find (db w) "WaterJournal" = [doc]
            ∧ doc_water_amount doc = Some 2%Q)
  ∧ (∀ name : string, name ≠ "WaterJournal"%string -> find (db w) name = []).

(** A sequence of daily records in ascending order of date. *)
Definition ascending_by_date (l : list DailyData.t) : Prop :=
  StronglySorted (fun a b => DailyData.date a <= DailyData.date b) l.

End Spec.

(** ** Concrete stores *)

Module Scenarios.
Import Py Mongo Robots World.

(** The entry a watering robot writes. *)
Definition water_entry (t : datetime) (amount : Q) : Data :=
  mkData (IdStr "w1") t (Some amount) None.

(** The entry a cutting robot writes. *)
Definition cut_entry (t : datetime) (branches : Q) : Data :=
  mkData (IdStr "c1") t None (Some branches).

(** The store after the given entries have been inserted in turn. *)
Definition store_of (water cut : list Data) : World :=
  let db := List.fold_left (fun db e => insert_one "WaterJournal" e db)
                           water empty_db in
  let db := List.fold_left (fun db e => insert_one "CutJournal" e db)
                           cut db in
  mkWorld db [].

(** A store whose only entry is a watering of 2 litres at 00:00:00.100 on
    2024-01-01, and a reading of the clock at 12:00:00.500 that day. *)
Definition watered_after_midnight : World :=
  store_of [water_entry (mk_datetime 2024 1 1 0 0 0 100000) 2%Q] [].

Definition noon_and_a_half : datetime := mk_datetime 2024 1 1 12 0 0 500000.

(** One watering of 1.5 litres and one cut of 8 branches, on 2024-01-01. *)
Definition single_point : World :=
  store_of [water_entry (mk_datetime 2024 1 1 8 30 0 0) 1.5%Q]
           [cut_entry (mk_datetime 2024 1 1 9 0 0 0) 8%Q].

(** 1.5 litres on 2024-01-01, in two waterings, and 1.5 litres on
    2024-01-03; cuts of 8 branches in the weeks 1 and 4 of 2024. *)
Definition jan_1_and_jan_3 : World :=
  store_of [water_entry (mk_datetime 2024 1 1 8 30 0 0) 1%Q;
            water_entry (mk_datetime 2024 1 3 8 30 0 0) 1.5%Q;
            water_entry (mk_datetime 2024 1 1 18 0 0 0) 0.5%Q]
           [cut_entry (mk_datetime 2024 1 8 9 0 0 0) 8%Q;
            cut_entry (mk_datetime 2024 1 29 9 0 0 0) 8%Q].

(** 1.5 litres on 2024-01-01 and 5 litres on 2024-01-03. *)
Definition jan_3_flooded : World :=
  store_of [water_entry (mk_datetime 2024 1 1 8 30 0 0) 1.5%Q;
            water_entry (mk_datetime 2024 1 3 8 30 0 0) 5%Q] [].

(** Entries stamped 10:00, 09:00 and 11:00 on 2024-01-01, inserted in
    that order. *)
Definition ten_nine_eleven : World :=
  store_of [water_entry (mk_datetime 2024 1 1 10 0 0 0) 2%Q;
            water_entry (mk_datetime 2024 1 1 9 0 0 0) 2%Q;
            water_entry (mk_datetime 2024 1 1 11 0 0 0) 2%Q] [].

End Scenarios.

(** ** Notions used in the statements below *)

Module Notions.
Import Py Mongo Robots World Derived.

(** No document carries a negative number in the field. *)
Definition nonneg_amounts (field : Doc -> option Q) (docs : list Doc) : Prop :=
  forall d q, In d docs -> field d = Some q -> (0 <= q)%Q.

(** Every collection of [w'] is the one of [w], possibly with more
    documents after it. *)
Definition append_only (w w' : World) : Prop :=
  forall name, exists added, find (db w') name = find (db w) name ++ added.

(** The sum of a field over the documents stamped at or after a date. *)
Definition used_since (field : Doc -> option Q) (threshold : datetime)
           (docs : list Doc) : Q :=
  sum_field field
            (List.filter (fun d => threshold <=? doc_timestamp d) docs).

(** The first reading of the clock is taken in the same day window, and
    the entry is stamped within it. *)
Definition water_threshold (now : datetime) : datetime :=
  bson_datetime (replace_hms_zero now).

Definition cut_threshold (now : datetime) : datetime :=
  let today := replace_hms_zero now in
  bson_datetime (today - timedelta_days (weekday today)).

(** The total of a field over the documents of the day of [d], and over
    those of the week number of [d]. *)
Definition day_sum (collection : list Doc) (field : Doc -> option Q)
           (timestamp_field : Doc -> datetime) (d : Doc) : Q :=
  sum_field field
    (List.filter (fun d' => timestamp_field d' / Calendar.us_per_day
                            =? timestamp_field d / Calendar.us_per_day)
                 collection).

Definition week_sum (collection : list Doc) (field : Doc -> option Q)
           (timestamp_field : Doc -> datetime) (d : Doc) : Q :=
  sum_field field
    (List.filter (fun d' => week (timestamp_field d')
                            =? week (timestamp_field d))
                 collection).

End Notions.

(** * Properties *)

(** ** The calendar *)

Module CalendarFacts.
Import Calendar.

Lemma yoe_bound doe :
  0 <= doe < 146097 ->
  0 <= (doe - doe / 1460 + doe / 36524 - doe / 146096) / 365 < 400.
Proof. intros. Z.div_mod_to_equations. lia. Qed.

Lemma doy_bound doe :
  0 <= doe < 146097 ->
  let yoe := (doe - doe / 1460 + doe / 36524 - doe / 146096) / 365 in
  0 <= doe - (365 * yoe + yoe / 4 - yoe / 100) <= 365.
Proof. intros H yoe. subst yoe. Z.div_mod_to_equations. lia. Qed.

Lemma days_from_civil_year_of_era yoe era m d :
  0 <= yoe < 400 ->
  days_from_civil
    (if m <=? 2 then yoe + era * 400 + 1 else yoe + era * 400) m d =
  era * 146097 + (yoe * 365 + yoe / 4 - yoe / 100)
  + ((153 * (if m <=? 2 then m + 9 else m - 3) + 2) / 5 + d - 1) - 719468.
Proof.
  intros Hy. unfold days_from_civil.
  replace (if m <=? 2
           then (if m <=? 2 then yoe + era * 400 + 1 else yoe + era * 400) - 1
           else (if m <=? 2 then yoe + era * 400 + 1 else yoe + era * 400))
    with (yoe + era * 400) by (destruct (m <=? 2); lia).
  rewrite Z.div_add, Z.mod_add by lia.
  rewrite Z.div_small, Z.mod_small by lia. lia.
Qed.

(** Converting a day number to a date and back is the identity. *)
Lemma days_from_civil_from_days z :
  let '(y, m, d) := civil_from_days z in days_from_civil y m d = z.
Proof.
  unfold civil_from_days.
  pose proof (Z.div_mod (z + 719468) 146097 ltac:(lia)) as Hdm.
  pose proof (Z.mod_pos_bound (z + 719468) 146097 ltac:(lia)) as Hb.
  set (era := (z + 719468) / 146097) in *.
  set (doe := (z + 719468) mod 146097) in *.
  pose proof (yoe_bound doe Hb) as Hy.
  pose proof (doy_bound doe Hb) as Hd. cbv zeta in Hd.
  set (yoe := (doe - doe / 1460 + doe / 36524 - doe / 146096) / 365) in *.
  set (doy := doe - (365 * yoe + yoe / 4 - yoe / 100)) in *.
  assert (Hmp : 0 <= (5 * doy + 2) / 153 <= 11)
    by (Z.div_mod_to_equations; lia).
  set (mp := (5 * doy + 2) / 153) in *.
  cbv zeta.
  rewrite days_from_civil_year_of_era by exact Hy.
  replace (if (if mp <? 10 then mp + 3 else mp - 9) <=? 2
           then (if mp <? 10 then mp + 3 else mp - 9) + 9
           else (if mp <? 10 then mp + 3 else mp - 9) - 3) with mp.
  - lia.
  - destruct (Z.ltb_spec mp 10);
      [destruct (Z.leb_spec (mp + 3) 2) | destruct (Z.leb_spec (mp - 9) 2)];
      lia.
Qed.

Lemma civil_from_days_inj z1 z2 :
  civil_from_days z1 = civil_from_days z2 -> z1 = z2.
Proof.
  intros H.
  pose proof (days_from_civil_from_days z1) as H1.
  pose proof (days_from_civil_from_days z2) as H2.
  rewrite H in H1. destruct (civil_from_days z2) as [[y m] d]. congruence.
Qed.

End CalendarFacts.

(** ** The store *)

Module StoreFacts.
Import Py Mongo World.

Lemma find_insert_one_eq name data (db : Database) :
  find (insert_one name data db) name =
  find db name ++ [mkDoc (next_oid db) (bson data)].
Proof. unfold find, insert_one. simpl. by rewrite lookup_insert_eq. Qed.

Lemma find_insert_one_ne name name' data (db : Database) :
  name ≠ name' -> find (insert_one name data db) name' = find db name'.
Proof.
  intros Hne. unfold find, insert_one. simpl. by rewrite lookup_insert_ne.
Qed.

Lemma find_empty_db name : find empty_db name = [].
Proof. unfold find, empty_db. simpl. by rewrite lookup_empty. Qed.

Lemma app_singleton_neq {A} (l : list A) (x : A) : l ≠ l ++ [x].
Proof.
  intros H. apply (f_equal (@length A)) in H.
  rewrite length_app in H. simpl in H. lia.
Qed.

End StoreFacts.

(** ** Routing of [Journal.update] *)

Section Routing.
Import Py Mongo Robots World StoreFacts.

(** C10. [Journal.update] appends the entry to [CutJournal] when the
    robot is a [CutRobot] and to [WaterJournal] for a robot of any other
    class, the base class included; the other collections are left as
    they are, and the entry reaches [CutJournal] only for a [CutRobot].
    The call has no exceptional outcome. *)
Theorem update_routes_on_robot_class (robot : AnyRobot) (data : Data) (w : World) :
  let w' := Journal.update Journal.init robot data w in
  let doc := mkDoc (next_oid (db w)) (bson data) in
  match robot with
  | ACutRobot _ =>
      find (db w') "CutJournal" = find (db w) "CutJournal" ++ [doc]
      ∧ find (db w') "WaterJournal" = find (db w) "WaterJournal"
  | BaseRobot _ | AWaterRobot _ =>
      find (db w') "WaterJournal" = find (db w) "WaterJournal" ++ [doc]
      ∧ find (db w') "CutJournal" = find (db w) "CutJournal"
  end
  ∧ (find (db w') "CutJournal" = find (db w) "CutJournal" ++ [doc]
     ↔ isinstance_CutRobot robot = true)
  ∧ (∀ name : string,
       name ≠ "CutJournal"%string -> name ≠ "WaterJournal"%string ->
       find (db w') name = find (db w) name)
  ∧ stdout w' = stdout w.
Proof.
  intros w' doc. subst w' doc. unfold Journal.update, with_db. simpl.
  assert (Hother : ∀ target name : string,
             (target = "CutJournal" ∨ target = "WaterJournal")%string ->
             name ≠ "CutJournal"%string -> name ≠ "WaterJournal"%string ->
             find (insert_one target data (db w)) name = find (db w) name).
  { intros target name [-> | ->] H1 H2; by apply find_insert_one_ne. }
  destruct robot as [r|r|r]; simpl;
    rewrite find_insert_one_eq, find_insert_one_ne by done;
    (split; [done|]); (split; [|split; [eauto|done]]).
  - split; [intros H; by apply app_singleton_neq in H | done].
  - split; [intros H; by apply app_singleton_neq in H | done].
  - done.
Qed.

End Routing.

(** ** Watering *)

Section Watering.
Import Py Mongo Robots World StoreFacts.

Lemma truthy_pos (q : Q) : (0 < q)%Q -> truthy q = true.
Proof.
  intros H. unfold truthy.
  destruct (Qeq_bool q 0) eqn:E; [|done].
  apply Qeq_bool_iff in E. rewrite E in H. by apply Qlt_irrefl in H.
Qed.

Lemma truthy_true_neq (q : Q) : truthy q = true -> ¬ (q == 0)%Q.
Proof.
  unfold truthy. intros H E. apply Qeq_bool_iff in E. by rewrite E in H.
Qed.

Lemma Qle_bool_false_lt (x y : Q) : Qle_bool x y = false -> (y < x)%Q.
Proof.
  intros H. apply Qnot_le_lt. intros Hle.
  apply Qle_bool_iff in Hle. congruence.
Qed.

(** C9. When [water_tree] raises [NotEnoughWaterError], which it does
    when the required amount is positive and exceeds the water level,
    the robot and the whole store are as before the call.  When the
    required amount is positive and at most the water level, the level
    drops by that amount and one entry, whose [water_amount] is that
    amount, is appended to the water collection, no other collection
    being touched. *)
Theorem water_tree_outcomes (self : Robots.WaterRobot) (journal : Journal.t)
        (today now : datetime) (w : World) :
  let required := Journal.get_required_amount_of_water journal today w in
  let '(res, self', w') := WaterRobot.water_tree self journal today now w in
  (∀ level amount, res = Raise (NotEnoughWaterError level amount) ->
     self' = self ∧ w' = w
     ∧ ¬ (required == 0)%Q ∧ (_water_level self < required)%Q)
  ∧ ((0 < required)%Q -> (_water_level self < required)%Q ->
     res = Raise (NotEnoughWaterError (_water_level self) required))
  ∧ ((0 < required)%Q -> (required <= _water_level self)%Q ->
     res = Ok tt
     ∧ _water_level self' = (_water_level self - required)%Q
     ∧ (∃ doc, find (db w') (Journal.water_journal journal) =
                 find (db w) (Journal.water_journal journal) ++ [doc]
               ∧ doc_water_amount doc = Some required)
     ∧ (∀ name, name ≠ Journal.water_journal journal ->
          find (db w') name = find (db w) name)).
Proof.
  intros required. unfold WaterRobot.water_tree. fold required.
  destruct (truthy required) eqn:Ht.
  - destruct (Qle_bool required (_water_level self)) eqn:Hle.
    + split; [intros level amount H; discriminate|].
      split.
      * intros _ Hlt. apply Qle_bool_iff in Hle.
        exfalso. eapply Qlt_irrefl, Qlt_le_trans; eauto.
      * intros _ _. simpl. split; [done|]. split; [done|].
        unfold Journal.update, with_db. simpl. split.
        -- eexists. split; [apply find_insert_one_eq|done].
        -- intros name Hne. by apply find_insert_one_ne.
    + apply Qle_bool_false_lt in Hle. split; [|split].
      * intros level amount _. split; [done|]. split; [done|].
        split; [by apply truthy_true_neq|done].
      * done.
      * intros _ Hc. exfalso. eapply Qlt_irrefl, Qlt_le_trans; eauto.
  - split; [intros level amount H; discriminate|].
    split; intros Hpos; apply truthy_pos in Hpos; congruence.
Qed.

(** A fresh robot with a tank of 5 on an empty store, then one day's
    ration already poured: the two outcomes of C9 at concrete inputs. *)
Lemma water_tree_outcomes_witness :
  let fresh := WaterRobot_new (IdStr "w1") 5%Q in
  let full := refill_tank fresh in
  (WaterRobot.water_tree fresh Journal.init 0 0 empty_world).1.1
    = Raise (NotEnoughWaterError 0 2)
  ∧ (WaterRobot.water_tree full Journal.init 0 0 empty_world).1.1 = Ok tt.
Proof.
  intros fresh full. split.
  - pose proof (water_tree_outcomes fresh Journal.init 0 0 empty_world) as H.
    cbv zeta in H.
    destruct (WaterRobot.water_tree fresh Journal.init 0 0 empty_world)
      as [[res self'] w'].
    destruct H as (_ & H & _). apply H; reflexivity.
  - pose proof (water_tree_outcomes full Journal.init 0 0 empty_world) as H.
    cbv zeta in H.
    destruct (WaterRobot.water_tree full Journal.init 0 0 empty_world)
      as [[res self'] w'].
    destruct H as (_ & _ & H). apply H; [reflexivity|].
    vm_compute. discriminate.
Defined.

End Watering.

(** ** The watering script on an empty store *)

Section WateringScript.
Import Py Mongo Robots World StoreFacts Spec.

Lemma required_on_empty_store (today : datetime) :
  Journal.get_required_amount_of_water Journal.init today empty_world = 2%Q.
Proof. reflexivity. Qed.

(** C5, as stated, fails: a robot built with a tank of 5 starts with a
    water level of 0, so that [water_tree] on an empty store raises
    [NotEnoughWaterError], stores nothing and leaves the level at 0. *)
Lemma water_tree_fresh_robot_raises :
  let outcome :=
    WaterRobot.water_tree (WaterRobot_new (IdStr "w1") 5%Q) Journal.init
                          0 0 empty_world in
  outcome = (Raise (NotEnoughWaterError 0 2),
             WaterRobot_new (IdStr "w1") 5%Q, empty_world)
  ∧ ¬ one_entry_of_2_and_level_3 outcome.
Proof.
  split; [reflexivity|].
  intros H. vm_compute in H. destruct H as [H _]. discriminate.
Qed.

(** C5, amended.  On an empty store the first [water_tree] of a robot
    built with a tank of 5 raises [NotEnoughWaterError]; the watering
    script, which then refills the tank and waters again, stores exactly
    one entry, of [water_amount] 2, and leaves the level at 3. *)
Theorem watering_script_on_empty_store (today1 now1 today2 now2 : datetime) :
  (WaterRobot.water_tree (WaterRobot_new (IdStr "w1") 5%Q) Journal.init
                         today1 now1 empty_world).1.1
    = Raise (NotEnoughWaterError 0 2)
  ∧ one_entry_of_2_and_level_3
      (Scripts.watering_script today1 now1 today2 now2 empty_world).
Proof.
  split; [reflexivity|].
  unfold Scripts.watering_script, WaterRobot.water_tree.
  rewrite !required_on_empty_store. simpl.
  unfold one_entry_of_2_and_level_3, Journal.update, with_db.
  rewrite !required_on_empty_store. simpl.
  split; [reflexivity|]. split; [reflexivity|]. split.
  - eexists. rewrite find_insert_one_eq, find_empty_db. split; reflexivity.
  - intros name Hne. rewrite find_insert_one_ne by done. apply find_empty_db.
Qed.

End WateringScript.

(** ** Reporting *)

Section Reporting.
Import Py Mongo World.

Variable str : Doc -> string.

(** C8. [print_last_10_records] raises [ValueError] exactly when the
    action is neither ["cut"] nor ["water"], and then before anything is
    read or printed; whatever the action, the database after the call is
    the database before it. *)
Theorem print_last_10_records_observes (action : string) (w : World) :
  let '(res, w') := Journal.print_last_10_records str Journal.init action w in
  db w' = db w
  ∧ ((∃ msg, res = Raise (ValueError msg))
     ↔ action ≠ "cut"%string ∧ action ≠ "water"%string)
  ∧ (action ≠ "cut"%string ∧ action ≠ "water"%string -> w' = w)
  ∧ (action = "cut"%string ∨ action = "water"%string -> res = Ok tt).
Proof.
  unfold Journal.print_last_10_records. cbn [Journal.stored_actions Journal.init existsb].
  destruct (String.eqb_spec action "cut") as [Hc|Hc];
    [|destruct (String.eqb_spec action "water") as [Hw|Hw]]; simpl.
  - split; [done|]. split; [|split; [|done]].
    + split; [intros [msg H]; discriminate | intros [H _]; done].
    + intros [H _]; done.
  - split; [done|]. split; [|split; [|done]].
    + split; [intros [msg H]; discriminate | intros [_ H]; done].
    + intros [_ H]; done.
  - split; [done|]. split; [|split; [done|]].
    + split; [done | intros _; eauto].
    + intros [H|H]; done.
Qed.

End Reporting.

(** ** The daily water allowance *)

Module QuotaFacts.
Import Calendar Py Mongo DBHelper World.

(** Grouping under a single key gives no row for no document and
    otherwise one row, which holds the sum. *)
Lemma group_sum_single_key_acc (field : Doc -> option Q) (docs : list Doc)
      (total : Q) :
  List.fold_left
    (fun rows d => group_add (fun _ _ : unit => true) tt (field d) rows)
    docs [(tt, total)]
  = [(tt, List.fold_left (fun total d => acc_sum total (field d)) docs total)].
Proof.
  revert total. induction docs as [|d docs IH]; intros total; [done|].
  simpl. apply IH.
Qed.

Lemma sum_by_field_value_sum_field collection field_to_match value
      field_to_sum operator :
  sum_by_field_value collection field_to_match value field_to_sum operator
  = sum_field field_to_sum
      (List.filter
         (fun d => matches operator (field_to_match d) (bson_datetime value))
         collection).
Proof.
  unfold sum_by_field_value, group_sum, sum_field.
  destruct (List.filter _ collection) as [|d docs]; [done|].
  simpl. by rewrite group_sum_single_key_acc.
Qed.

(** What the code computes: the entries counted are those stamped at or
    after midnight plus the sub-second part of the reading, in whole
    milliseconds. *)
Lemma get_required_amount_of_water_eq (self : Journal.t) (now : datetime)
      (w : World) :
  let today := bson_datetime (replace_hms_zero now) in
  let used :=
    sum_field doc_water_amount
              (List.filter (fun d => today <=? doc_timestamp d)
                           (find (db w) (Journal.water_journal self))) in
  (Journal.get_required_amount_of_water self now w
   == Qmax 0 (Journal.max_water self - used))%Q
  ∧ ((Journal.max_water self <= used)%Q ->
     Journal.get_required_amount_of_water self now w = 0%Q).
Proof.
  intros today used. unfold Journal.get_required_amount_of_water.
  rewrite sum_by_field_value_sum_field. cbn [matches]. fold today. fold used.
  destruct (Qle_bool (Journal.max_water self) used) eqn:E.
  - split; [|done]. apply Qle_bool_iff in E.
    rewrite Q.max_l; [reflexivity|].
    apply (Qplus_le_l _ _ used). ring_simplify. exact E.
  - split.
    + rewrite Q.max_r; [reflexivity|].
      apply Qlt_le_weak. apply (Qplus_lt_l _ _ used). ring_simplify.
      apply Qnot_le_lt. intros H. apply Qle_bool_iff in H. congruence.
    + intros H. apply Qle_bool_iff in H. congruence.
Qed.

Lemma replace_hms_zero_whole_ms (now : datetime) :
  0 <= now mod us_per_second < us_per_ms ->
  bson_datetime (replace_hms_zero now) = floor_day now.
Proof.
  unfold bson_datetime, replace_hms_zero, floor_day,
    us_per_ms, us_per_second, us_per_day.
  intros H. Z.div_mod_to_equations. lia.
Qed.

(** When the reading of the clock has less than a millisecond past the
    second, the code and the specification agree. *)
Lemma get_required_amount_of_water_whole_second (self : Journal.t)
      (now : datetime) (w : World) :
  0 <= now mod us_per_second < us_per_ms ->
  (Journal.get_required_amount_of_water self now w
   == Spec.remainingWater self now w)%Q.
Proof.
  intros H.
  destruct (get_required_amount_of_water_eq self now w) as [E _].
  rewrite replace_hms_zero_whole_ms in E by exact H. exact E.
Qed.

End QuotaFacts.

Section Quota.
Import Calendar Py Mongo DBHelper Robots World Scenarios.

(** C4 at a failing input.  The day's 2 litres were poured a tenth of a
    second after midnight; read at noon and half a second, the code takes
    [today] to be 00:00:00.500, leaves the entry out and still asks for
    2 litres, where the start of the calendar day gives 0. *)
Theorem get_required_amount_of_water_keeps_subsecond :
  replace_hms_zero noon_and_a_half = mk_datetime 2024 1 1 0 0 0 500000
  ∧ floor_day noon_and_a_half = mk_datetime 2024 1 1 0 0 0 0
  ∧ Journal.get_required_amount_of_water Journal.init noon_and_a_half
                                         watered_after_midnight = 2%Q
  ∧ Spec.remainingWater Journal.init noon_and_a_half
                        watered_after_midnight = 0%Q.
Proof. vm_compute. done. Qed.

End Quota.

(** ** Sorting, indexing and ranges *)

Module ListFacts.
Import Py Derived.

Section SortBy.
Context {A : Type} (key : A -> Z).

Lemma insert_by_perm x l : Permutation (insert_by key x l) (x :: l).
Proof.
  induction l as [|y l IH]; simpl; [done|].
  destruct (key x <=? key y); [done|].
  rewrite IH. apply perm_swap.
Qed.

Lemma sort_by_perm l : Permutation (sort_by key l) l.
Proof.
  induction l as [|x l IH]; simpl; [done|].
  rewrite insert_by_perm. by constructor.
Qed.

Lemma sort_by_In x l : In x (sort_by key l) <-> In x l.
Proof.
  split; apply Permutation_in;
    [apply sort_by_perm | symmetry; apply sort_by_perm].
Qed.

Lemma sort_by_length l : length (sort_by key l) = length l.
Proof. apply Permutation_length, sort_by_perm. Qed.

Lemma insert_by_sorted x l :
  StronglySorted (key_le key) l -> StronglySorted (key_le key) (insert_by key x l).
Proof.
  induction l as [|y l IH]; intros Hs; simpl.
  - repeat constructor.
  - destruct (Z.leb_spec (key x) (key y)) as [Hle|Hgt].
    + constructor; [exact Hs|].
      apply StronglySorted_inv in Hs as [_ Hall].
      constructor; [exact Hle|].
      eapply List.Forall_impl; [|exact Hall].
      intros z Hz. unfold key_le in *. lia.
    + apply StronglySorted_inv in Hs as [Hs Hall].
      constructor; [by apply IH|].
      eapply Permutation_Forall; [symmetry; apply insert_by_perm|].
      constructor; [unfold key_le; lia | exact Hall].
Qed.

Lemma sort_by_sorted l : StronglySorted (key_le key) (sort_by key l).
Proof.
  induction l as [|x l IH]; simpl; [constructor|].
  by apply insert_by_sorted.
Qed.

(** Without two equal keys, a sorted list is strictly increasing. *)
Lemma sorted_NoDup_strict l :
  StronglySorted (key_le key) l -> List.NoDup (List.map key l) ->
  StronglySorted (key_lt key) l.
Proof.
  induction l as [|x l IH]; intros Hs Hnd; [constructor|].
  apply StronglySorted_inv in Hs as [Hs Hall].
  simpl in Hnd. apply List.NoDup_cons_iff in Hnd as [Hx Hnd].
  constructor; [by apply IH|].
  apply List.Forall_forall. intros y Hy.
  rewrite List.Forall_forall in Hall. specialize (Hall y Hy).
  unfold key_le, key_lt in *.
  assert (key x ≠ key y); [|lia].
  intros E. apply Hx. rewrite E. by apply List.in_map.
Qed.

Lemma sorted_filter (R : A -> A -> Prop) (p : A -> bool) l :
  StronglySorted R l -> StronglySorted R (List.filter p l).
Proof.
  induction l as [|x l IH]; intros Hs; simpl; [constructor|].
  apply StronglySorted_inv in Hs as [Hs Hall].
  destruct (p x); [|by apply IH].
  constructor; [by apply IH|].
  apply List.Forall_forall. intros y Hy.
  apply List.filter_In in Hy as [Hy _].
  rewrite List.Forall_forall in Hall. by apply Hall.
Qed.

Lemma sorted_head_le x l y :
  StronglySorted (key_le key) (x :: l) -> In y (x :: l) -> key x <= key y.
Proof.
  intros Hs [->|Hy]; [lia|].
  apply StronglySorted_inv in Hs as [_ Hall].
  rewrite List.Forall_forall in Hall. by apply Hall.
Qed.

Lemma sorted_last_ge l d y :
  StronglySorted (key_le key) l -> In y l -> key y <= key (List.last l d).
Proof.
  revert y. induction l as [|x l IH]; intros y Hs Hy; [done|].
  apply StronglySorted_inv in Hs as [Hs Hall].
  destruct l as [|x' l].
  - destruct Hy as [->|[]]. simpl. lia.
  - change (List.last (x :: x' :: l) d) with (List.last (x' :: l) d).
    destruct Hy as [->|Hy]; [|by apply IH].
    rewrite List.Forall_forall in Hall.
    transitivity (key x'); [apply Hall; by left|].
    apply IH; [exact Hs | by left].
Qed.

End SortBy.

Lemma last_In {A} (x : A) l d : In (List.last (x :: l) d) (x :: l).
Proof.
  revert x. induction l as [|y l IH]; intros x; [by left|].
  right. apply IH.
Qed.

Lemma py_index_nil {A} (i : Z) : py_index (@nil A) i = Raise IndexError.
Proof.
  unfold py_index.
  destruct (_ || _); [done|].
  by destruct (Z.to_nat _).
Qed.

Lemma py_index_first {A} (x : A) l : py_index (x :: l) 0 = Ok x.
Proof.
  unfold py_index. cbn [Z.ltb Z.compare].
  replace (Z.of_nat (length (x :: l)) <=? 0) with false; [done|].
  symmetry. apply Z.leb_gt. simpl length. lia.
Qed.

Lemma nth_error_last {A} (x : A) l d :
  nth_error (x :: l) (length l) = Some (List.last (x :: l) d).
Proof.
  revert x. induction l as [|y l IH]; intros x; [done|].
  simpl length. change (nth_error (x :: y :: l) (S (length l)))
    with (nth_error (y :: l) (length l)).
  rewrite IH. done.
Qed.

Lemma py_index_last {A} (x : A) l d :
  py_index (x :: l) (-1) = Ok (List.last (x :: l) d).
Proof.
  unfold py_index. cbn [Z.ltb Z.compare].
  set (n := Z.of_nat (length (x :: l))).
  assert (Hn : n = Z.of_nat (length l) + 1) by (subst n; simpl length; lia).
  replace ((-1 + n <? 0) || (n <=? -1 + n)) with false
    by (symmetry; apply orb_false_intro;
        [apply Z.ltb_ge | apply Z.leb_gt]; lia).
  replace (Z.to_nat (-1 + n)) with (length l) by lia.
  by rewrite (nth_error_last x l d).
Qed.

Lemma range_In (start stop k : Z) :
  In k (range start stop) <-> start <= k < stop.
Proof.
  unfold range. rewrite List.in_map_iff. split.
  - intros (i & <- & Hi). apply List.in_seq in Hi. lia.
  - intros H. exists (Z.to_nat (k - start)). split; [lia|].
    apply List.in_seq. lia.
Qed.

Lemma range_sorted (start stop : Z) : StronglySorted Z.lt (range start stop).
Proof.
  unfold range. generalize (Z.to_nat (stop - start)) as n. intros n.
  generalize 0%nat as b. induction n as [|n IH]; intros b; simpl;
    [constructor|].
  constructor; [apply IH|].
  apply List.Forall_forall. intros k Hk.
  apply List.in_map_iff in Hk as (i & <- & Hi).
  apply List.in_seq in Hi. lia.
Qed.

(** A loop that appends some of the values it meets. *)
Lemma fold_left_append {A B} (p : B -> bool) (g : B -> A) (l : list B)
      (acc : list A) :
  List.fold_left (fun acc i => if p i then acc ++ [g i] else acc) l acc
  = acc ++ List.map g (List.filter p l).
Proof.
  revert acc. induction l as [|i l IH]; intros acc; simpl.
  - by rewrite app_nil_r.
  - rewrite IH. destruct (p i); [|done].
    simpl. by rewrite <- app_assoc.
Qed.

Lemma existsb_eqb_In (x : Z) (l : list Z) :
  existsb (Z.eqb x) l = true <-> In x l.
Proof.
  rewrite List.existsb_exists. split.
  - intros (y & Hy & E). apply Z.eqb_eq in E. by subst.
  - intros H. exists x. split; [done|]. apply Z.eqb_refl.
Qed.

End ListFacts.

(** ** Grouping *)

Module GroupFacts.
Import Py Mongo Derived.

Section Grouping.
Context {K : Type} (eqb : K -> K -> bool).
Hypothesis eqb_eq : forall a b, eqb a b = true <-> a = b.

Lemma group_add_In_key k x rows k' :
  In k' (List.map fst (group_add eqb k x rows))
  <-> k' = k \/ In k' (List.map fst rows).
Proof.
  induction rows as [|[k0 t0] rows IH]; simpl.
  - split; [intros [H|[]]; by left | intros [H|[]]; by left].
  - destruct (eqb k k0) eqn:E; simpl.
    + apply eqb_eq in E. subst k0. intuition congruence.
    + rewrite IH. intuition congruence.
Qed.

Lemma group_add_NoDup k x rows :
  List.NoDup (List.map fst rows) ->
  List.NoDup (List.map fst (group_add eqb k x rows)).
Proof.
  induction rows as [|[k0 t0] rows IH]; simpl; intros Hnd.
  - constructor; [tauto | constructor].
  - destruct (eqb k k0) eqn:E; simpl; [exact Hnd|].
    apply List.NoDup_cons_iff in Hnd as [Hk0 Hnd].
    constructor; [|by apply IH].
    rewrite group_add_In_key. intros [->|H]; [|done].
    assert (eqb k k = true) by by apply eqb_eq. congruence.
Qed.

(** Where the row of a key comes from after one more document. *)
Lemma group_add_In k x rows k' t' :
  List.NoDup (List.map fst rows) ->
  In (k', t') (group_add eqb k x rows) ->
  (k' <> k /\ In (k', t') rows)
  \/ (k' = k /\ exists t, In (k, t) rows /\ t' = acc_sum t x)
  \/ (k' = k /\ ~ In k (List.map fst rows) /\ t' = acc_sum 0%Q x).
Proof.
  assert (Hrefl : forall a, eqb a a = true) by (intros a; by apply eqb_eq).
  induction rows as [|[k0 t0] rows IH]; simpl; intros Hnd.
  - intros [H|[]]. injection H as <- <-. right. right. tauto.
  - apply List.NoDup_cons_iff in Hnd as [Hk0 Hnd].
    destruct (eqb k k0) eqn:E.
    + apply eqb_eq in E. subst k0. intros [H|H].
      * injection H as <- <-. right. left. eauto.
      * left. split; [|by right].
        intros ->. apply Hk0.
        change k with (fst (k, t')). by apply List.in_map.
    + intros [H|H].
      * injection H as <- <-. left. split; [|by left].
        intros ->. rewrite Hrefl in E. discriminate.
      * destruct (IH Hnd H) as [[? ?]|[(-> & t & ? & ->)|(-> & ? & ->)]].
        -- left. eauto.
        -- right. left. eauto.
        -- right. right. split; [done|]. split; [|done].
           intros [<-|?]; [|done]. rewrite Hrefl in E. discriminate.
Qed.

Context {D : Type} (key : D -> K) (field : D -> option Q).

Lemma group_fold_In_key docs rows k :
  In k (List.map fst (List.fold_left (group_step eqb key field) docs rows))
  <-> In k (List.map fst rows) \/ exists d, In d docs /\ key d = k.
Proof.
  revert rows. induction docs as [|d docs IH]; intros rows; simpl.
  - split; [tauto | intros [H|(d & [] & _)]; done].
  - rewrite IH. unfold group_step. rewrite group_add_In_key. split.
    + intros [[->|H]|(d' & H & E)]; eauto.
    + intros [H|(d' & [->|H] & E)]; eauto.
Qed.

Lemma group_fold_NoDup docs rows :
  List.NoDup (List.map fst rows) ->
  List.NoDup (List.map fst (List.fold_left (group_step eqb key field) docs rows)).
Proof.
  revert rows. induction docs as [|d docs IH]; intros rows Hnd; simpl;
    [done|].
  apply IH. by apply group_add_NoDup.
Qed.

Lemma group_fold_total docs rows k t :
  List.NoDup (List.map fst rows) ->
  In (k, t) (List.fold_left (group_step eqb key field) docs rows) ->
  (exists t0, In (k, t0) rows /\ t = total_of eqb key field k docs t0)
  \/ (~ In k (List.map fst rows) /\ t = total_of eqb key field k docs 0%Q).
Proof.
  assert (Hrefl : forall a, eqb a a = true) by (intros a; by apply eqb_eq).
  revert rows. induction docs as [|d docs IH]; intros rows Hnd; simpl.
  - intros H. left. eauto.
  - intros H. unfold total_of. simpl.
    destruct (IH _ (group_add_NoDup (key d) (field d) rows Hnd) H)
      as [(t0 & Ht0 & ->)|[Hk ->]].
    + apply group_add_In in Ht0; [|done].
      destruct Ht0 as [[Hne Hin]|[(-> & t1 & Hin & ->)|(-> & Hnin & ->)]].
      * left. exists t0. split; [done|].
        destruct (eqb (key d) k) eqn:E; [|done].
        apply eqb_eq in E. congruence.
      * left. exists t1. split; [done|]. by rewrite Hrefl.
      * right. split; [done|]. by rewrite Hrefl.
    + right. unfold group_step in Hk. rewrite group_add_In_key in Hk.
      split; [tauto|].
      destruct (eqb (key d) k) eqn:E; [|done].
      apply eqb_eq in E. exfalso. apply Hk. by left.
Qed.

End Grouping.

(** Rows with distinct keys have one total per key. *)
Lemma NoDup_fst_functional {K V} (l : list (K * V)) k a b :
  List.NoDup (List.map fst l) -> In (k, a) l -> In (k, b) l -> a = b.
Proof.
  induction l as [|[k0 v0] l IH]; [done|]. simpl. intros Hnd.
  apply List.NoDup_cons_iff in Hnd as [Hk Hnd].
  assert (Hin : forall v, In (k0, v) l -> False).
  { intros v Hv. apply Hk. change k0 with (fst (k0, v)).
    by apply List.in_map. }
  intros [H1|H1] [H2|H2].
  - congruence.
  - injection H1 as -> ->. by apply Hin in H2.
  - injection H2 as -> ->. by apply Hin in H1.
  - by apply IH.
Qed.

Lemma parts_eqb_eq (p q : Z * Z * Z) : parts_eqb p q = true <-> p = q.
Proof.
  destruct p as [[y1 m1] d1], q as [[y2 m2] d2]. unfold parts_eqb.
  rewrite !andb_true_iff, !Z.eqb_eq. split.
  - intros [[-> ->] ->]. done.
  - intros H. injection H as -> -> ->. done.
Qed.

Section GroupSum.
Context {K : Type} (eqb : K -> K -> bool).
Hypothesis eqb_eq : forall a b, eqb a b = true <-> a = b.
Context (key : Doc -> K) (field : Doc -> option Q).

Lemma group_sum_In_key docs k :
  In k (List.map fst (group_sum eqb key field docs))
  <-> exists d, In d docs /\ key d = k.
Proof.
  unfold group_sum.
  rewrite (group_fold_In_key eqb eqb_eq key field docs []). simpl. tauto.
Qed.

Lemma group_sum_NoDup docs :
  List.NoDup (List.map fst (group_sum eqb key field docs)).
Proof.
  unfold group_sum.
  apply (group_fold_NoDup eqb eqb_eq key field docs []). constructor.
Qed.

Lemma group_sum_total docs k t :
  In (k, t) (group_sum eqb key field docs) ->
  t = sum_field field (List.filter (fun d => eqb (key d) k) docs).
Proof.
  unfold group_sum. intros H.
  apply (group_fold_total eqb eqb_eq key field docs []) in H;
    [|constructor].
  destruct H as [(t0 & [] & _)|[_ ->]]. done.
Qed.

Lemma group_sum_nil_iff docs :
  group_sum eqb key field docs = [] <-> docs = [].
Proof.
  split; [|intros ->; done].
  intros H. destruct docs as [|d docs]; [done|]. exfalso.
  assert (Hin : In (key d) (List.map fst (group_sum eqb key field (d :: docs))))
    by (apply group_sum_In_key; exists d; split; [by left|done]).
  by rewrite H in Hin.
Qed.

End GroupSum.

End GroupFacts.

(** ** The range audits: the derived sequences *)

Module AuditFacts.
Import Calendar Py Mongo DBHelper World Derived ListFacts GroupFacts.

Lemma dateFromParts_dateToParts (t : datetime) :
  dateFromParts (dateToParts t) = floor_day t.
Proof.
  unfold dateFromParts, dateToParts, floor_day.
  pose proof (CalendarFacts.days_from_civil_from_days (t / us_per_day)) as H.
  destruct (civil_from_days (t / us_per_day)) as [[y m] d]. by rewrite H.
Qed.

Lemma floor_day_div (t : datetime) : floor_day t / us_per_day = t / us_per_day.
Proof. unfold floor_day. by rewrite Z.div_mul. Qed.

Lemma dateToParts_eq_iff (t1 t2 : datetime) :
  dateToParts t1 = dateToParts t2 <-> t1 / us_per_day = t2 / us_per_day.
Proof.
  unfold dateToParts. split; [apply CalendarFacts.civil_from_days_inj|].
  by intros ->.
Qed.

Lemma last_map {A B} (f : A -> B) (l : list A) (d : A) :
  List.last (List.map f l) (f d) = f (List.last l d).
Proof.
  induction l as [|x l IH]; [done|].
  destruct l as [|y l]; [done|]. exact IH.
Qed.

Lemma gaps_In {E} (mk : Z -> E) at_index existing indices e :
  In e (gaps mk at_index existing indices)
  <-> exists i, In i indices /\ ~ In (at_index i) existing
                /\ e = mk (at_index i).
Proof.
  unfold gaps. rewrite List.in_map_iff. split.
  - intros (i & <- & Hi). apply List.filter_In in Hi as [Hi Hn].
    exists i. split; [done|]. split; [|done].
    rewrite <- existsb_eqb_In. by destruct (existsb _ _).
  - intros (i & Hi & Hn & ->). exists i. split; [done|].
    apply List.filter_In. split; [done|].
    rewrite <- existsb_eqb_In in Hn. by destruct (existsb _ _).
Qed.

Lemma gaps_sorted {E} (mk : Z -> E) (key : E -> Z) at_index existing indices :
  (forall i j, i < j -> key (mk (at_index i)) < key (mk (at_index j))) ->
  StronglySorted Z.lt indices ->
  StronglySorted (key_lt key) (gaps mk at_index existing indices).
Proof.
  intros Hmono Hs. unfold gaps.
  apply (sorted_filter Z.lt
           (fun i => negb (existsb (Z.eqb (at_index i)) existing))) in Hs.
  induction Hs as [|i l Hs IH Hall]; simpl; [constructor|].
  constructor; [exact IH|].
  apply List.Forall_forall. intros e He.
  apply List.in_map_iff in He as (j & <- & Hj).
  rewrite List.Forall_forall in Hall. apply Hmono. by apply Hall.
Qed.

Section Water.
Variables (self : Journal.t) (w : World).

Let docs : list Doc := find (db w) (Journal.water_journal self).
Let rows : list (Z * Z * Z * Q) :=
  group_sum parts_eqb (fun d => dateToParts (doc_timestamp d))
            doc_water_amount docs.
Let existing : list DailyData.t := Journal.existing_daily_data self w.

Lemma existing_daily_In e :
  In e existing
  <-> exists p t, In (p, t) rows /\ e = DailyData.mk (dateFromParts p) t.
Proof.
  unfold existing, Journal.existing_daily_data, sum_field_by_date.
  fold docs. fold rows. rewrite sort_by_In, List.map_map, List.in_map_iff.
  split.
  - intros ([p t] & <- & H). eauto.
  - intros (p & t & H & ->). exists (p, t). done.
Qed.

Lemma existing_daily_dates x :
  In x (List.map DailyData.date existing)
  <-> exists d, In d docs /\ x = floor_day (doc_timestamp d).
Proof.
  rewrite List.in_map_iff. split.
  - intros (e & <- & He). apply existing_daily_In in He as (p & t & H & ->).
    assert (Hp : In p (List.map fst rows))
      by (change p with (fst (p, t)); by apply List.in_map).
    apply (group_sum_In_key parts_eqb parts_eqb_eq) in Hp as (d & Hd & <-).
    exists d. split; [done|]. simpl. apply dateFromParts_dateToParts.
  - intros (d & Hd & ->).
    assert (Hp : In (dateToParts (doc_timestamp d)) (List.map fst rows))
      by (apply (group_sum_In_key parts_eqb parts_eqb_eq); eauto).
    apply List.in_map_iff in Hp as ([p t] & Hpt & H). simpl in Hpt. subst p.
    exists (DailyData.mk (dateFromParts (dateToParts (doc_timestamp d))) t).
    split; [apply dateFromParts_dateToParts|].
    apply existing_daily_In. eauto.
Qed.

Lemma existing_daily_NoDup : List.NoDup (List.map DailyData.date existing).
Proof.
  unfold existing, Journal.existing_daily_data, sum_field_by_date.
  fold docs. fold rows.
  eapply Permutation_NoDup.
  { apply Permutation_map. symmetry. apply sort_by_perm. }
  rewrite !List.map_map.
  apply NoDup_map_NoDup_ForallPairs.
  - intros [p1 t1] [p2 t2] H1 H2. simpl. intros E.
    assert (Hk : forall p t, In (p, t) rows ->
                   exists d, dateToParts (doc_timestamp d) = p).
    { intros p t H.
      assert (Hp : In p (List.map fst rows))
        by (change p with (fst (p, t)); by apply List.in_map).
      apply (group_sum_In_key parts_eqb parts_eqb_eq) in Hp
        as (d & _ & <-). eauto. }
    destruct (Hk _ _ H1) as (d1 & <-). destruct (Hk _ _ H2) as (d2 & <-).
    rewrite !dateFromParts_dateToParts in E.
    assert (Hp : dateToParts (doc_timestamp d1)
                 = dateToParts (doc_timestamp d2)).
    { apply dateToParts_eq_iff.
      rewrite <- (floor_day_div (doc_timestamp d1)), E.
      apply floor_day_div. }
    assert (Hnd := group_sum_NoDup parts_eqb parts_eqb_eq
                     (fun d => dateToParts (doc_timestamp d))
                     doc_water_amount docs).
    fold rows in Hnd. rewrite Hp in H1 |- *. f_equal.
    eapply NoDup_fst_functional; eauto.
  - eapply NoDup_map_inv.
    apply (group_sum_NoDup parts_eqb parts_eqb_eq).
Qed.

Lemma existing_daily_sorted :
  StronglySorted (key_lt DailyData.date) existing.
Proof.
  apply sorted_NoDup_strict; [|apply existing_daily_NoDup].
  apply sort_by_sorted.
Qed.

Lemma existing_daily_nil_iff : existing = [] <-> docs = [].
Proof.
  unfold existing, Journal.existing_daily_data, sum_field_by_date.
  fold docs. fold rows. split.
  - intros H. apply (f_equal (@length _)) in H.
    rewrite sort_by_length, !length_map in H.
    apply (group_sum_nil_iff parts_eqb parts_eqb_eq
             (fun d => dateToParts (doc_timestamp d)) doc_water_amount).
    fold rows. by destruct rows.
  - intros H. subst rows. by rewrite H.
Qed.

End Water.

End AuditFacts.

Module WaterAuditFacts.
Import Calendar Py Mongo DBHelper World Derived ListFacts GroupFacts AuditFacts.

Lemma floor_day_day_of (d : Doc) :
  floor_day (doc_timestamp d) = day_of d * us_per_day.
Proof. done. Qed.

Lemma water_daily_data_eq (self : Journal.t) (w : World) :
  Journal.water_daily_data self w =
  match Journal.existing_daily_data self w with
  | [] => Raise IndexError
  | first :: rest => Ok ((first :: rest) ++ daily_gaps first rest)
  end.
Proof.
  unfold Journal.water_daily_data.
  destruct (Journal.existing_daily_data self w) as [|first rest].
  - simpl List.map. by rewrite py_index_nil.
  - cbn [List.map]. rewrite py_index_first.
    rewrite (py_index_last _ _ (DailyData.date first)).
    change (DailyData.date first :: List.map DailyData.date rest)
      with (List.map DailyData.date (first :: rest)).
    rewrite last_map. cbn [mbind result_bind mret result_ret].
    f_equal.
    exact (fold_left_append
             (fun i => negb (existsb
                               (Z.eqb (DailyData.date first + timedelta_days i))
                               (List.map DailyData.date (first :: rest))))
             (fun i => DailyData.mk (DailyData.date first + timedelta_days i) 0%Q)
             _ _).
Qed.

Lemma get_water_errors_eq (self : Journal.t) (w : World) :
  let bad := fun day =>
    Journal.out_of_range (Journal.min_water self) (Journal.max_water self)
                         (DailyData.amount day) in
  Journal.get_water_errors self w =
  match Journal.existing_daily_data self w with
  | [] => Raise IndexError
  | first :: rest =>
      Ok (List.filter bad (first :: rest)
          ++ List.filter bad (daily_gaps first rest))
  end.
Proof.
  intros bad. unfold Journal.get_water_errors.
  rewrite water_daily_data_eq.
  destruct (Journal.existing_daily_data self w) as [|first rest]; [done|].
  cbn [mbind result_bind mret result_ret]. by rewrite List.filter_app.
Qed.

Lemma key_lt_sorted_NoDup {A} (key : A -> Z) (l : list A) :
  StronglySorted (key_lt key) l -> List.NoDup (List.map key l).
Proof.
  induction 1 as [|x l Hs IH Hall]; simpl; constructor; [|exact IH].
  intros Hin. apply List.in_map_iff in Hin as (y & E & Hy).
  rewrite List.Forall_forall in Hall. specialize (Hall y Hy).
  unfold key_lt in Hall. lia.
Qed.

Lemma daily_gaps_sorted first rest :
  StronglySorted (key_lt DailyData.date) (daily_gaps first rest).
Proof.
  apply gaps_sorted; [|apply range_sorted].
  intros i j Hij. simpl. unfold timedelta_days, us_per_day. lia.
Qed.

Section Water.
Variables (self : Journal.t) (w : World).

Let docs : list Doc := find (db w) (Journal.water_journal self).

Variables (first : DailyData.t) (rest : list DailyData.t).
Hypothesis Hexisting : Journal.existing_daily_data self w = first :: rest.

Lemma existing_In_doc e :
  In e (first :: rest) ->
  exists d, In d docs /\ DailyData.date e = day_of d * us_per_day.
Proof.
  intros He.
  assert (H : In (DailyData.date e)
                 (List.map DailyData.date
                           (Journal.existing_daily_data self w)))
    by (rewrite Hexisting; by apply List.in_map).
  apply existing_daily_dates in H as (d & Hd & E). eauto.
Qed.

Lemma doc_In_existing d :
  In d docs ->
  exists e, In e (first :: rest)
            /\ DailyData.date e = day_of d * us_per_day.
Proof.
  intros Hd.
  assert (H : In (floor_day (doc_timestamp d))
                 (List.map DailyData.date
                           (Journal.existing_daily_data self w)))
    by (apply existing_daily_dates; eauto).
  rewrite Hexisting in H. apply List.in_map_iff in H as (e & E & He). eauto.
Qed.

Lemma first_is_earliest d :
  In d docs ->
  exists d0, In d0 docs /\ DailyData.date first = day_of d0 * us_per_day
             /\ day_of d0 <= day_of d.
Proof.
  intros Hd.
  destruct (existing_In_doc first ltac:(by left)) as (d0 & Hd0 & E0).
  exists d0. split; [done|]. split; [done|].
  destruct (doc_In_existing d Hd) as (e & He & E).
  pose proof (existing_daily_sorted self w) as Hs. rewrite Hexisting in Hs.
  assert (Hle : StronglySorted (key_le DailyData.date) (first :: rest)).
  { rewrite <- Hexisting. apply sort_by_sorted. }
  pose proof (sorted_head_le DailyData.date first rest e Hle He) as H.
  rewrite E0, E in H. unfold us_per_day in H. lia.
Qed.

Lemma last_is_latest d :
  In d docs ->
  exists d1, In d1 docs
             /\ DailyData.date (List.last (first :: rest) first)
                = day_of d1 * us_per_day
             /\ day_of d <= day_of d1.
Proof.
  intros Hd.
  destruct (existing_In_doc _ (last_In first rest first)) as (d1 & Hd1 & E1).
  exists d1. split; [done|]. split; [done|].
  destruct (doc_In_existing d Hd) as (e & He & E).
  assert (Hle : StronglySorted (key_le DailyData.date) (first :: rest)).
  { rewrite <- Hexisting. apply sort_by_sorted. }
  pose proof (sorted_last_ge DailyData.date (first :: rest) first e Hle He)
    as H.
  rewrite E1, E in H. unfold us_per_day in H. lia.
Qed.

(** A gap entry is a day without documents, with amount 0. *)
Lemma daily_gaps_In e :
  In e (daily_gaps first rest) ->
  DailyData.amount e = 0%Q
  /\ ~ In (DailyData.date e) (List.map DailyData.date (first :: rest))
  /\ forall d, In d docs -> DailyData.date e <> day_of d * us_per_day.
Proof.
  intros He. apply gaps_In in He as (i & Hi & Hn & ->). simpl.
  split; [done|]. split; [done|].
  intros d Hd E. apply Hn.
  destruct (doc_In_existing d Hd) as (e & He & Ee).
  rewrite E, <- Ee. by apply List.in_map.
Qed.

(** Every day between two days with documents has its entry. *)
Lemma daily_cover d1 d2 n :
  In d1 docs -> In d2 docs -> day_of d1 <= n <= day_of d2 ->
  exists e, In e ((first :: rest) ++ daily_gaps first rest)
            /\ DailyData.date e = n * us_per_day
            /\ ((forall d, In d docs -> day_of d <> n) ->
                DailyData.amount e = 0%Q).
Proof.
  intros H1 H2 Hn.
  destruct (first_is_earliest d1 H1) as (ds & Hds & Es & Hs).
  destruct (last_is_latest d2 H2) as (dl & Hdl & El & Hl).
  destruct (List.in_dec Z.eq_dec (n * us_per_day)
              (List.map DailyData.date (first :: rest))) as [Hin|Hnin].
  - apply List.in_map_iff in Hin as (e & E & He).
    exists e. split; [apply List.in_or_app; by left|]. split; [done|].
    intros Hnone. exfalso.
    destruct (existing_In_doc e He) as (d & Hd & Ed).
    apply (Hnone d Hd). rewrite E in Ed. unfold us_per_day in Ed. lia.
  - exists (DailyData.mk (n * us_per_day) 0%Q).
    split; [|done]. apply List.in_or_app. right.
    apply gaps_In. exists (n - day_of ds).
    assert (Hne : n <> day_of dl).
    { intros ->. apply Hnin. rewrite <- El.
      apply List.in_map, last_In. }
    assert (Eat : DailyData.date first + timedelta_days (n - day_of ds)
                  = n * us_per_day)
      by (rewrite Es; unfold timedelta_days; lia).
    rewrite Eat. split; [|done].
    apply range_In. rewrite El, Es. unfold days.
    rewrite <- Z.mul_sub_distr_r, Z.div_mul by done. lia.
Qed.

Lemma daily_data_NoDup :
  List.NoDup
    (List.map DailyData.date ((first :: rest) ++ daily_gaps first rest)).
Proof.
  rewrite List.map_app. apply List.NoDup_app.
  - rewrite <- Hexisting. apply existing_daily_NoDup.
  - apply key_lt_sorted_NoDup, daily_gaps_sorted.
  - intros x Hx Hg. apply List.in_map_iff in Hg as (e & <- & He).
    apply daily_gaps_In in He as (_ & Hn & _). done.
Qed.

End Water.

End WaterAuditFacts.

Module CutAuditFacts.
Import Calendar Py Mongo DBHelper World Derived ListFacts GroupFacts AuditFacts.
Import WaterAuditFacts.

Lemma cut_week_data_eq (self : Journal.t) (w : World) :
  Journal.cut_week_data self w =
  match Journal.existing_week_data self w with
  | [] => Raise IndexError
  | first :: rest => Ok ((first :: rest) ++ weekly_gaps first rest)
  end.
Proof.
  unfold Journal.cut_week_data.
  destruct (Journal.existing_week_data self w) as [|first rest].
  - by rewrite py_index_nil.
  - rewrite py_index_first, (py_index_last _ _ first).
    cbn [mbind result_bind mret result_ret]. f_equal.
    exact (fold_left_append
             (fun i => negb (existsb
                               (Z.eqb i)
                               (List.map WeeklyData.week_number (first :: rest))))
             (fun i => WeeklyData.mk i 0%Q) _ _).
Qed.

Lemma get_cut_errors_eq (self : Journal.t) (w : World) :
  let bad := fun wk =>
    Journal.out_of_range (Journal.min_branches self)
                         (Journal.max_branches self)
                         (WeeklyData.amount wk) in
  Journal.get_cut_errors self w =
  match Journal.existing_week_data self w with
  | [] => Raise IndexError
  | first :: rest =>
      Ok (List.filter bad (first :: rest)
          ++ List.filter bad (weekly_gaps first rest))
  end.
Proof.
  intros bad. unfold Journal.get_cut_errors.
  rewrite cut_week_data_eq.
  destruct (Journal.existing_week_data self w) as [|first rest]; [done|].
  cbn [mbind result_bind mret result_ret]. by rewrite List.filter_app.
Qed.

Lemma weekly_gaps_sorted first rest :
  StronglySorted (key_lt WeeklyData.week_number) (weekly_gaps first rest).
Proof. apply gaps_sorted; [|apply range_sorted]. intros i j Hij. done. Qed.

Section Cut.
Variables (self : Journal.t) (w : World).

Let docs : list Doc := find (db w) (Journal.cut_journal self).
Let rows : list (Z * Q) :=
  group_sum Z.eqb week_of doc_number_of_branches docs.
Let existing : list WeeklyData.t := Journal.existing_week_data self w.

Lemma existing_week_In e :
  In e existing <-> exists k t, In (k, t) rows /\ e = WeeklyData.mk k t.
Proof.
  unfold existing, Journal.existing_week_data, sum_field_by_week.
  fold docs. change (fun d : Doc => week (doc_timestamp d)) with week_of.
  fold rows. rewrite sort_by_In, List.map_map, List.in_map_iff.
  split.
  - intros ([k t] & <- & H). eauto.
  - intros (k & t & H & ->). exists (k, t). done.
Qed.

Lemma existing_week_numbers x :
  In x (List.map WeeklyData.week_number existing)
  <-> exists d, In d docs /\ x = week_of d.
Proof.
  rewrite List.in_map_iff. split.
  - intros (e & <- & He). apply existing_week_In in He as (k & t & H & ->).
    assert (Hk : In k (List.map fst rows))
      by (change k with (fst (k, t)); by apply List.in_map).
    apply (group_sum_In_key Z.eqb Z.eqb_eq) in Hk as (d & Hd & <-).
    eauto.
  - intros (d & Hd & ->).
    assert (Hk : In (week_of d) (List.map fst rows))
      by (apply (group_sum_In_key Z.eqb Z.eqb_eq); eauto).
    apply List.in_map_iff in Hk as ([k t] & Hkt & H). simpl in Hkt. subst k.
    exists (WeeklyData.mk (week_of d) t). split; [done|].
    apply existing_week_In. eauto.
Qed.

Lemma existing_week_NoDup :
  List.NoDup (List.map WeeklyData.week_number existing).
Proof.
  unfold existing, Journal.existing_week_data, sum_field_by_week.
  fold docs. change (fun d : Doc => week (doc_timestamp d)) with week_of.
  fold rows.
  eapply Permutation_NoDup.
  { apply Permutation_map. symmetry. apply sort_by_perm. }
  rewrite !List.map_map.
  replace (List.map _ rows) with (List.map fst rows)
    by (apply List.map_ext; by intros [k t]).
  apply (group_sum_NoDup Z.eqb Z.eqb_eq).
Qed.

Lemma existing_week_nil_iff : existing = [] <-> docs = [].
Proof.
  unfold existing, Journal.existing_week_data, sum_field_by_week.
  fold docs. change (fun d : Doc => week (doc_timestamp d)) with week_of.
  fold rows. split.
  - intros H. apply (f_equal (@length _)) in H.
    rewrite sort_by_length, !length_map in H.
    apply (group_sum_nil_iff Z.eqb Z.eqb_eq week_of doc_number_of_branches).
    fold rows. by destruct rows.
  - intros H. subst rows. by rewrite H.
Qed.

Variables (first : WeeklyData.t) (rest : list WeeklyData.t).
Hypothesis Hexisting : Journal.existing_week_data self w = first :: rest.

Lemma existing_week_sorted :
  StronglySorted (key_lt WeeklyData.week_number) (first :: rest).
Proof.
  rewrite <- Hexisting.
  apply sorted_NoDup_strict; [|apply existing_week_NoDup].
  apply sort_by_sorted.
Qed.

Lemma week_In_doc e :
  In e (first :: rest) ->
  exists d, In d docs /\ WeeklyData.week_number e = week_of d.
Proof.
  intros He. apply existing_week_numbers. fold existing in Hexisting.
  rewrite Hexisting. by apply List.in_map.
Qed.

Lemma doc_In_week d :
  In d docs ->
  exists e, In e (first :: rest) /\ WeeklyData.week_number e = week_of d.
Proof.
  intros Hd.
  assert (H : In (week_of d) (List.map WeeklyData.week_number existing))
    by (apply existing_week_numbers; eauto).
  fold existing in Hexisting. rewrite Hexisting in H.
  apply List.in_map_iff in H as (e & E & He). eauto.
Qed.

Lemma week_bounds d :
  In d docs ->
  WeeklyData.week_number first <= week_of d
  <= WeeklyData.week_number (List.last (first :: rest) first).
Proof.
  intros Hd. destruct (doc_In_week d Hd) as (e & He & <-).
  assert (Hle : StronglySorted (key_le WeeklyData.week_number)
                               (first :: rest)).
  { rewrite <- Hexisting. apply sort_by_sorted. }
  split.
  - by apply (sorted_head_le WeeklyData.week_number first rest e).
  - by apply (sorted_last_ge WeeklyData.week_number (first :: rest) first e).
Qed.

(** A gap entry is a week without documents, with amount 0. *)
Lemma weekly_gaps_In e :
  In e (weekly_gaps first rest) ->
  WeeklyData.amount e = 0%Q
  /\ ~ In (WeeklyData.week_number e)
          (List.map WeeklyData.week_number (first :: rest))
  /\ forall d, In d docs -> WeeklyData.week_number e <> week_of d.
Proof.
  intros He. apply gaps_In in He as (i & Hi & Hn & ->). simpl.
  split; [done|]. split; [done|].
  intros d Hd E. apply Hn.
  destruct (doc_In_week d Hd) as (e & He & Ee).
  rewrite E, <- Ee. by apply List.in_map.
Qed.

(** Every week number between two weeks with documents has its entry,
    the last one too: it is itself a week with documents. *)
Lemma weekly_cover d1 d2 n :
  In d1 docs -> In d2 docs -> week_of d1 <= n <= week_of d2 ->
  exists e, In e ((first :: rest) ++ weekly_gaps first rest)
            /\ WeeklyData.week_number e = n
            /\ ((forall d, In d docs -> week_of d <> n) ->
                WeeklyData.amount e = 0%Q).
Proof.
  intros H1 H2 Hn.
  pose proof (week_bounds d1 H1) as B1. pose proof (week_bounds d2 H2) as B2.
  destruct (List.in_dec Z.eq_dec n
              (List.map WeeklyData.week_number (first :: rest)))
    as [Hin|Hnin].
  - apply List.in_map_iff in Hin as (e & E & He).
    exists e. split; [apply List.in_or_app; by left|]. split; [done|].
    intros Hnone. exfalso.
    destruct (week_In_doc e He) as (d & Hd & Ed).
    apply (Hnone d Hd). congruence.
  - exists (WeeklyData.mk n 0%Q).
    split; [|done]. apply List.in_or_app. right.
    apply gaps_In. exists n. split; [|done].
    assert (Hne : n <> WeeklyData.week_number (List.last (first :: rest) first)).
    { intros ->. apply Hnin. apply List.in_map, last_In. }
    apply range_In. lia.
Qed.

Lemma week_data_NoDup :
  List.NoDup
    (List.map WeeklyData.week_number
              ((first :: rest) ++ weekly_gaps first rest)).
Proof.
  rewrite List.map_app. apply List.NoDup_app.
  - apply key_lt_sorted_NoDup, existing_week_sorted.
  - apply key_lt_sorted_NoDup, weekly_gaps_sorted.
  - intros x Hx Hg. apply List.in_map_iff in Hg as (e & <- & He).
    apply weekly_gaps_In in He as (_ & Hn & _). done.
Qed.

End Cut.

End CutAuditFacts.

(** ** The range audits *)

Section RangeAudits.
Import Calendar Py Mongo DBHelper World Derived ListFacts AuditFacts.
Import WaterAuditFacts CutAuditFacts Scenarios.

(** C6. With at least one water entry, the daily totals after the loop
    hold one entry for each day from the earliest to the latest day with
    an entry, a day without entries having amount 0; with at least one
    cut entry, the weekly totals after the loop hold one entry for each
    week number from the lowest to the highest with an entry, the
    highest included, a week number without entries having amount 0. *)
Theorem derived_totals_cover_range (self : Journal.t) (w : World) :
  (find (db w) (Journal.water_journal self) <> [] ->
   exists data,
     Journal.water_daily_data self w = Ok data
     /\ List.NoDup (List.map DailyData.date data)
     /\ forall d1 d2 n,
          In d1 (find (db w) (Journal.water_journal self)) ->
          In d2 (find (db w) (Journal.water_journal self)) ->
          day_of d1 <= n <= day_of d2 ->
          exists e, In e data
                    /\ DailyData.date e = n * us_per_day
                    /\ ((forall d, In d (find (db w) (Journal.water_journal self))
                                   -> day_of d <> n) ->
                        DailyData.amount e = 0%Q))
  /\ (find (db w) (Journal.cut_journal self) <> [] ->
      exists data,
        Journal.cut_week_data self w = Ok data
        /\ List.NoDup (List.map WeeklyData.week_number data)
        /\ forall d1 d2 n,
             In d1 (find (db w) (Journal.cut_journal self)) ->
             In d2 (find (db w) (Journal.cut_journal self)) ->
             week_of d1 <= n <= week_of d2 ->
             exists e, In e data
                       /\ WeeklyData.week_number e = n
                       /\ ((forall d, In d (find (db w) (Journal.cut_journal self))
                                      -> week_of d <> n) ->
                           WeeklyData.amount e = 0%Q)).
Proof.
  split; intros Hne.
  - rewrite water_daily_data_eq.
    destruct (Journal.existing_daily_data self w) as [|first rest] eqn:E.
    { by apply existing_daily_nil_iff in E. }
    eexists. split; [reflexivity|]. split.
    + by apply (daily_data_NoDup self w).
    + intros d1 d2 n. by apply (daily_cover self w).
  - rewrite cut_week_data_eq.
    destruct (Journal.existing_week_data self w) as [|first rest] eqn:E.
    { by apply existing_week_nil_iff in E. }
    eexists. split; [reflexivity|]. split.
    + by apply (week_data_NoDup self w).
    + intros d1 d2 n. by apply (weekly_cover self w).
Qed.

(** On a store with waterings on 2024-01-01 and 2024-01-03 and cuts in
    the weeks 1 and 4 of 2024: the day in between and the weeks in
    between are there. *)
Lemma derived_totals_cover_range_witness :
  (exists data,
     Journal.water_daily_data Journal.init jan_1_and_jan_3 = Ok data
     /\ In (DailyData.mk (mk_datetime 2024 1 2 0 0 0 0) 0%Q) data)
  /\ (exists data,
        Journal.cut_week_data Journal.init jan_1_and_jan_3 = Ok data
        /\ In (WeeklyData.mk 3 0%Q) data).
Proof.
  destruct (derived_totals_cover_range Journal.init jan_1_and_jan_3)
    as [Hw Hc].
  split.
  - destruct Hw as (data & E & _ & _); [vm_compute; discriminate|].
    exists data. split; [exact E|].
    vm_compute in E. injection E as <-. vm_compute. tauto.
  - destruct Hc as (data & E & _ & _); [vm_compute; discriminate|].
    exists data. split; [exact E|].
    vm_compute in E. injection E as <-. vm_compute. tauto.
Defined.

(** C2, as stated, fails: on a store with a single water entry and a
    single cut entry, both range audits return a list, the empty one, and
    raise nothing; on the empty store what they raise is [IndexError]. *)
Lemma range_audits_return_on_single_point :
  Journal.get_water_errors Journal.init single_point = Ok []
  /\ Journal.get_cut_errors Journal.init single_point = Ok []
  /\ ~ (exists e, Journal.get_water_errors Journal.init single_point = Raise e)
  /\ ~ (exists e, Journal.get_cut_errors Journal.init single_point = Raise e)
  /\ Journal.get_water_errors Journal.init empty_world = Raise IndexError
  /\ Journal.get_cut_errors Journal.init empty_world = Raise IndexError.
Proof.
  assert (Hw : Journal.get_water_errors Journal.init single_point = Ok [])
    by (vm_compute; reflexivity).
  assert (Hc : Journal.get_cut_errors Journal.init single_point = Ok [])
    by (vm_compute; reflexivity).
  split; [exact Hw|]. split; [exact Hc|].
  split; [intros [e H]; congruence|].
  split; [intros [e H]; congruence|].
  split; vm_compute; reflexivity.
Qed.

(** C2, amended.  On an empty collection each range audit raises
    [IndexError], from indexing the empty list of totals; on a collection
    with at least one entry, a single one included, it returns a list. *)
Theorem range_audits_on_empty_and_nonempty (self : Journal.t) (w : World) :
  match find (db w) (Journal.water_journal self) with
  | [] => Journal.get_water_errors self w = Raise IndexError
  | _ :: _ => exists errors, Journal.get_water_errors self w = Ok errors
  end
  /\ match find (db w) (Journal.cut_journal self) with
     | [] => Journal.get_cut_errors self w = Raise IndexError
     | _ :: _ => exists wrong_weeks,
                   Journal.get_cut_errors self w = Ok wrong_weeks
     end.
Proof.
  split.
  - rewrite get_water_errors_eq.
    pose proof (existing_daily_nil_iff self w) as H.
    destruct (Journal.existing_daily_data self w) as [|first rest];
      destruct (find (db w) (Journal.water_journal self)) as [|d docs].
    + done.
    + destruct H as [H _]. by specialize (H eq_refl).
    + destruct H as [_ H]. by specialize (H eq_refl).
    + eauto.
  - rewrite get_cut_errors_eq.
    pose proof (existing_week_nil_iff self w) as H.
    destruct (Journal.existing_week_data self w) as [|first rest];
      destruct (find (db w) (Journal.cut_journal self)) as [|d docs].
    + done.
    + destruct H as [H _]. by specialize (H eq_refl).
    + destruct H as [_ H]. by specialize (H eq_refl).
    + eauto.
Qed.

(** C7, as stated, fails: with 1.5 litres on 2024-01-01 and 5 litres on
    2024-01-03, the flagged records are 2024-01-03 and then the gap day
    2024-01-02. *)
Lemma get_water_errors_not_ascending :
  Journal.get_water_errors Journal.init jan_3_flooded
  = Ok [DailyData.mk (mk_datetime 2024 1 3 0 0 0 0) 5%Q;
        DailyData.mk (mk_datetime 2024 1 2 0 0 0 0) 0%Q]
  /\ ~ (exists errors,
          Journal.get_water_errors Journal.init jan_3_flooded = Ok errors
          /\ Spec.ascending_by_date errors).
Proof.
  assert (E : Journal.get_water_errors Journal.init jan_3_flooded
              = Ok [DailyData.mk (mk_datetime 2024 1 3 0 0 0 0) 5%Q;
                    DailyData.mk (mk_datetime 2024 1 2 0 0 0 0) 0%Q])
    by (vm_compute; reflexivity).
  split; [exact E|].
  intros (errors & E' & Hs). rewrite E in E'. injection E' as <-.
  apply StronglySorted_inv in Hs as [_ Hall].
  apply Forall_inv in Hall. vm_compute in Hall. by apply Hall.
Qed.

(** C7, amended.  With at least one water entry, [get_water_errors]
    returns the flagged days that have entries, in ascending order of
    date, followed by the days without entries between the earliest and
    the latest day, each with amount 0, in ascending order of date. *)
Theorem get_water_errors_two_ascending_runs (w : World) :
  find (db w) "WaterJournal" <> [] ->
  exists flagged_days gap_days,
    Journal.get_water_errors Journal.init w = Ok (flagged_days ++ gap_days)
    /\ StronglySorted (key_lt DailyData.date) flagged_days
    /\ StronglySorted (key_lt DailyData.date) gap_days
    /\ (forall e, In e flagged_days ->
          Journal.out_of_range 1 2 (DailyData.amount e) = true
          /\ exists d, In d (find (db w) "WaterJournal")
                       /\ DailyData.date e = day_of d * us_per_day)
    /\ (forall e, In e gap_days ->
          DailyData.amount e = 0%Q
          /\ forall d, In d (find (db w) "WaterJournal") ->
                       DailyData.date e <> day_of d * us_per_day).
Proof.
  intros Hne. rewrite get_water_errors_eq.
  destruct (Journal.existing_daily_data Journal.init w)
    as [|first rest] eqn:E.
  { by apply existing_daily_nil_iff in E. }
  eexists. eexists. split; [reflexivity|].
  split; [|split; [|split]].
  - apply sorted_filter. rewrite <- E. apply existing_daily_sorted.
  - apply sorted_filter. apply daily_gaps_sorted.
  - intros e He. apply List.filter_In in He as [He Hbad].
    split; [exact Hbad|]. by apply (existing_In_doc Journal.init w first rest).
  - intros e He. apply List.filter_In in He as [He _].
    apply (daily_gaps_In Journal.init w first rest E) in He
      as (H0 & _ & Hd). done.
Qed.

Lemma get_water_errors_two_ascending_runs_witness :
  exists flagged_days gap_days,
    Journal.get_water_errors Journal.init jan_3_flooded
    = Ok (flagged_days ++ gap_days)
    /\ StronglySorted (key_lt DailyData.date) flagged_days
    /\ StronglySorted (key_lt DailyData.date) gap_days.
Proof.
  destruct (get_water_errors_two_ascending_runs jan_3_flooded)
    as (l1 & l2 & E & H1 & H2 & _); [vm_compute; discriminate|].
  exists l1, l2. split; [exact E|]. split; [exact H1 | exact H2].
Defined.

End RangeAudits.

(** ** The ordering audit *)

Module OrderingFacts.
Import Calendar Py Mongo World Derived ListFacts.

Lemma flagged_from (pre suf : list Doc) (acc : list ObjectId) :
  List.fold_left (flag_step (pre ++ suf))
                 (combine (seq (length pre) (length (removelast suf)))
                          (removelast suf)) acc
  = acc ++ inversions suf.
Proof.
  revert pre acc. induction suf as [|a suf IH]; intros pre acc.
  - simpl. by rewrite app_nil_r.
  - destruct suf as [|b suf].
    + simpl. by rewrite app_nil_r.
    + change (removelast (a :: b :: suf)) with (a :: removelast (b :: suf)).
      cbn [length seq combine List.fold_left].
      replace (S (length pre)) with (length (pre ++ [a]))
        by (rewrite length_app; simpl; lia).
      replace (pre ++ a :: b :: suf) with ((pre ++ [a]) ++ b :: suf)
        by (by rewrite <- app_assoc).
      rewrite IH. cbn [inversions].
      unfold flag_step at 1.
      replace (((pre ++ [a]) ++ b :: suf) !! length pre) with (Some a).
      2:{ rewrite <- app_assoc. simpl.
          by rewrite list_lookup_middle. }
      replace (((pre ++ [a]) ++ b :: suf) !! S (length pre)) with (Some b).
      2:{ symmetry. apply list_lookup_middle.
          rewrite length_app. simpl. lia. }
      destruct (doc_timestamp b <? doc_timestamp a); [|done].
      by rewrite <- app_assoc.
Qed.

Lemma flagged_inversions (l : list Doc) : flagged l = inversions l.
Proof. unfold flagged, enumerate. exact (flagged_from [] l []). Qed.

(** The loop on the dictionary appends to the list of the collection. *)
Lemma flag_inversions_alter (c : string) (l : list Doc)
      (errors : gmap string (list ObjectId)) :
  Journal.flag_inversions c l errors
  = alter (fun old => old ++ flagged l) c errors.
Proof.
  unfold Journal.flag_inversions, flagged.
  generalize (enumerate (removelast l)) as xs. intros xs.
  assert (H : forall acc,
             List.fold_left
               (fun errs '(i, entry) =>
                  match l !! i, l !! S i with
                  | Some a, Some b =>
                      if doc_timestamp b <? doc_timestamp a
                      then alter (fun old => old ++ [_id entry]) c errs
                      else errs
                  | _, _ => errs
                  end)
               xs (alter (fun old => old ++ acc) c errors)
             = alter (fun old => old ++ List.fold_left (flag_step l) xs acc)
                     c errors).
  { induction xs as [|[i entry] xs IH]; intros acc; [done|].
    cbn [List.fold_left flag_step].
    destruct (l !! i) as [a|]; [|apply IH].
    destruct (l !! S i) as [b|]; [|apply IH].
    destruct (doc_timestamp b <? doc_timestamp a); [|apply IH].
    rewrite <- IH. f_equal. rewrite alter_alter_eq.
    apply alter_ext. intros old _. simpl. by rewrite <- app_assoc. }
  rewrite <- H. f_equal. symmetry.
  apply alter_id. intros old _. apply app_nil_r.
Qed.

Lemma fold_left_ext {A B} (f g : A -> B -> A) (l : list B) (a : A) :
  (forall a b, f a b = g a b) ->
  List.fold_left f l a = List.fold_left g l a.
Proof.
  intros H. revert a. induction l as [|b l IH]; intros a; [done|].
  simpl. by rewrite H, IH.
Qed.

Lemma fold_alter_lookup {V} (g : string -> V -> V) (cs : list string)
      (m : gmap string V) (k : string) :
  List.NoDup cs ->
  List.fold_left (fun m c => alter (g c) c m) cs m !! k
  = if decide (k ∈ cs) then g k <$> m !! k else m !! k.
Proof.
  revert m. induction cs as [|c cs IH]; intros m Hnd; simpl.
  - destruct (decide (k ∈ [])) as [H|_]; [|done]. by apply elem_of_nil in H.
  - apply List.NoDup_cons_iff in Hnd as [Hc Hnd].
    rewrite IH by exact Hnd. rewrite <- list_elem_of_In in Hc.
    destruct (decide (c = k)) as [->|Hne].
    + rewrite decide_False by exact Hc.
      rewrite decide_True by apply list_elem_of_here.
      apply lookup_alter_eq.
    + rewrite lookup_alter_ne by done.
      destruct (decide (k ∈ cs)) as [Hin|Hnin].
      * rewrite decide_True by (by apply list_elem_of_further). done.
      * rewrite decide_False; [done|].
        intros H. apply elem_of_cons in H as [->|H]; done.
Qed.

(** The report of the audit for a collection depends only on the
    documents of that collection. *)
Lemma get_ordering_errors_lookup (self : Journal.t) (w : World) (c : string) :
  Journal.get_ordering_errors self w !! c
  = ordering_errors_of <$> colls (db w) !! c.
Proof.
  unfold Journal.get_ordering_errors.
  set (cs := list_collection_names (db w)).
  assert (Hnd : List.NoDup cs).
  { unfold cs, list_collection_names.
    apply NoDup_ListNoDup, NoDup_fst_map_to_list. }
  assert (Hin : forall k, k ∈ cs <-> is_Some (colls (db w) !! k)).
  { intros k. unfold cs, list_collection_names.
    rewrite list_elem_of_fmap. split.
    - intros ([k' v] & -> & H). apply elem_of_map_to_list in H. eauto.
    - intros [v H]. exists (k, v). split; [done|].
      by apply elem_of_map_to_list. }
  set (g := fun c' (old : list ObjectId) =>
              old ++ ordering_errors_of (find (db w) c')).
  rewrite (fold_left_ext _ (fun m c' => alter (g c') c' m)).
  2:{ intros errors c'. unfold g, ordering_errors_of.
      destruct (negb _).
      - apply flag_inversions_alter.
      - symmetry. apply alter_id. intros old _. apply app_nil_r. }
  rewrite fold_alter_lookup by exact Hnd.
  destruct (decide (c ∈ cs)) as [Hc|Hc].
  - apply Hin in Hc as [docs Hdocs]. rewrite Hdocs. simpl.
    assert (Hinit : (list_to_map
                       (List.map (fun collection : string => (collection, []))
                                 cs) : gmap string (list ObjectId)) !! c
                    = Some []).
    { apply elem_of_list_to_map_1.
      - change (List.map ?f cs) with (f <$> cs). rewrite <- list_fmap_compose.
        replace (fst ∘ _ <$> cs) with cs; [apply NoDup_ListNoDup, Hnd|].
        clear. induction cs as [|x l IH]; [done|]. simpl. by f_equal.
      - apply list_elem_of_In, List.in_map_iff. exists c. split; [done|].
        apply list_elem_of_In, Hin. eauto. }
    rewrite Hinit. simpl. unfold g, find. by rewrite Hdocs.
  - assert (Hnone : colls (db w) !! c = None).
    { destruct (colls (db w) !! c) eqn:E; [|done].
      exfalso. apply Hc, Hin. eauto. }
    rewrite Hnone. simpl.
    apply not_elem_of_list_to_map_1. intros H.
    apply Hc. change (List.map ?f cs) with (f <$> cs) in H.
    rewrite <- list_fmap_compose in H.
    by apply list_elem_of_fmap in H as (x & -> & H).
Qed.

End OrderingFacts.

Section OrderingAudit.
Import Calendar Py Mongo World Derived ListFacts StoreFacts OrderingFacts Scenarios.

Lemma colls_insert_one (c : string) (data : Data) (db : Database) :
  colls (insert_one c data db) !! c
  = Some (find db c ++ [mkDoc (next_oid db) (bson data)]).
Proof. unfold insert_one. simpl. apply lookup_insert_eq. Qed.

Lemma bson_datetime_whole_hour (day h : Z) :
  bson_datetime (day * us_per_day + h * 3600 * us_per_second)
  = day * us_per_day + h * 3600 * us_per_second.
Proof.
  unfold bson_datetime, us_per_day, us_per_second, us_per_ms.
  Z.div_mod_to_equations. lia.
Qed.

(** Three documents in [_id] order of which the second is stamped before
    the first and the third not before the first. *)
Lemma ordering_errors_of_three (d1 d2 d3 : Doc) :
  _id d1 < _id d2 < _id d3 ->
  doc_timestamp d2 < doc_timestamp d1 <= doc_timestamp d3 ->
  ordering_errors_of [d1; d2; d3] = [_id d1].
Proof.
  intros Hid Hts. unfold ordering_errors_of, sort_asc, sort_by.
  cbn [List.fold_right insert_by].
  repeat match goal with
         | |- context [?a <=? ?b] =>
             destruct (Z.leb_spec a b); [|]; try lia; cbn [insert_by]
         end.
  assert (Hne : Journal.docs_eqb [d1; d2; d3] [d2; d1; d3] = false).
  { cbn [Journal.docs_eqb]. unfold Journal.doc_eqb.
    replace (_id d1 =? _id d2) with false by (symmetry; apply Z.eqb_neq; lia).
    done. }
  rewrite Hne. cbn [negb]. rewrite flagged_inversions. cbn [inversions].
  replace (doc_timestamp d2 <? doc_timestamp d1) with true
    by (symmetry; apply Z.ltb_lt; lia).
  replace (doc_timestamp d3 <? doc_timestamp d2) with false
    by (symmetry; apply Z.ltb_ge; lia).
  done.
Qed.

(** C1, as stated, fails: with entries stamped 10:00, 09:00 and 11:00
    inserted in that order, the audit reports the [_id] of the first
    inserted entry, the one stamped 10:00, and not that of the second. *)
Lemma ordering_audit_flags_first_entry :
  List.map (fun d => (_id d, doc_timestamp d))
           (find (db ten_nine_eleven) "WaterJournal")
  = [(0, mk_datetime 2024 1 1 10 0 0 0);
     (1, mk_datetime 2024 1 1 9 0 0 0);
     (2, mk_datetime 2024 1 1 11 0 0 0)]
  /\ Journal.get_ordering_errors Journal.init ten_nine_eleven
       !! "WaterJournal"%string = Some [0]
  /\ Journal.get_ordering_errors Journal.init ten_nine_eleven
       !! "WaterJournal"%string <> Some [1].
Proof.
  assert (E : Journal.get_ordering_errors Journal.init ten_nine_eleven
                !! "WaterJournal"%string = Some [0])
    by (vm_compute; reflexivity).
  split; [vm_compute; reflexivity|]. split; [exact E|].
  rewrite E. discriminate.
Qed.

(** C1, amended.  When entries stamped 10:00, 09:00 and 11:00 of one day
    are inserted in that order into a collection that did not exist, the
    audit reports for that collection exactly the [_id] of the first
    inserted entry, the one stamped 10:00, whose timestamp exceeds that
    of the entry inserted next. *)
Theorem ordering_audit_flags_entry_before_inversion
        (self : Journal.t) (w : World) (c : string) (e1 e2 e3 : Data)
        (day : Z) :
  colls (db w) !! c = None ->
  timestamp e1 = day * us_per_day + 10 * 3600 * us_per_second ->
  timestamp e2 = day * us_per_day + 9 * 3600 * us_per_second ->
  timestamp e3 = day * us_per_day + 11 * 3600 * us_per_second ->
  let w' :=
    with_db (fun db => insert_one c e3 (insert_one c e2 (insert_one c e1 db)))
            w in
  List.map _id (find (db w') c)
  = [next_oid (db w); next_oid (db w) + 1; next_oid (db w) + 2]
  /\ Journal.get_ordering_errors self w' !! c = Some [next_oid (db w)].
Proof.
  intros Hnone H1 H2 H3 w'.
  assert (Hfind : find (db w) c = []) by (unfold find; by rewrite Hnone).
  assert (Hcolls : colls (db w') !! c
                   = Some [mkDoc (next_oid (db w)) (bson e1);
                           mkDoc (next_oid (db w) + 1) (bson e2);
                           mkDoc (next_oid (db w) + 2) (bson e3)]).
  { subst w'. unfold with_db. cbn [db].
    rewrite colls_insert_one, !find_insert_one_eq, Hfind. simpl.
    by replace (next_oid (db w) + 1 + 1) with (next_oid (db w) + 2) by lia. }
  split.
  - unfold find. by rewrite Hcolls.
  - rewrite get_ordering_errors_lookup, Hcolls. cbn [fmap option_fmap option_map].
    f_equal. apply ordering_errors_of_three.
    + simpl. lia.
    + unfold doc_timestamp. cbn [fields bson timestamp].
      rewrite H1, H2, H3, !bson_datetime_whole_hour.
      unfold us_per_second. lia.
Qed.

Lemma ordering_audit_flags_entry_before_inversion_witness :
  Journal.get_ordering_errors Journal.init ten_nine_eleven
    !! "WaterJournal"%string = Some [0].
Proof.
  exact (proj2
           (ordering_audit_flags_entry_before_inversion
              Journal.init empty_world "WaterJournal"
              (water_entry (mk_datetime 2024 1 1 10 0 0 0) 2%Q)
              (water_entry (mk_datetime 2024 1 1 9 0 0 0) 2%Q)
              (water_entry (mk_datetime 2024 1 1 11 0 0 0) 2%Q)
              19723 eq_refl eq_refl eq_refl eq_refl)).
Defined.

End OrderingAudit.

(** ** Gap filling between two days *)

Module GapFacts.
Import Calendar Py Mongo DBHelper World Derived ListFacts GroupFacts AuditFacts.
Import WaterAuditFacts.

(** Rows under two keys, in either order. *)
Lemma two_keys_rows {K V} (l : list (K * V)) (k1 k2 : K) :
  k1 <> k2 ->
  List.NoDup (List.map fst l) ->
  (forall k, In k (List.map fst l) <-> k = k1 \/ k = k2) ->
  exists v1 v2, l = [(k1, v1); (k2, v2)] \/ l = [(k2, v2); (k1, v1)].
Proof.
  intros Hne Hnd Hk.
  destruct l as [|[a va] [|[b vb] [|[c vc] l]]]; simpl in *.
  - exfalso. apply (Hk k1). by left.
  - exfalso. destruct (proj2 (Hk k1) (or_introl eq_refl)) as [E1|[]].
    destruct (proj2 (Hk k2) (or_intror eq_refl)) as [E2|[]]. congruence.
  - apply List.NoDup_cons_iff in Hnd as [Hab _].
    assert (Ha := proj1 (Hk a) (or_introl eq_refl)).
    assert (Hb := proj1 (Hk b) (or_intror (or_introl eq_refl))).
    destruct Ha as [->| ->], Hb as [->| ->].
    + exfalso. apply Hab. by left.
    + exists va, vb. by left.
    + exists vb, va. by right.
    + exfalso. apply Hab. by left.
  - exfalso.
    apply List.NoDup_cons_iff in Hnd as [Ha Hnd].
    apply List.NoDup_cons_iff in Hnd as [Hb _].
    assert (Ha' := proj1 (Hk a) (or_introl eq_refl)).
    assert (Hb' := proj1 (Hk b) (or_intror (or_introl eq_refl))).
    assert (Hc' := proj1 (Hk c) (or_intror (or_intror (or_introl eq_refl)))).
    simpl in Ha, Hb.
    destruct Ha' as [->| ->], Hb' as [->| ->], Hc' as [->| ->]; tauto.
Qed.

Lemma dateFromParts_january (y d : Z) :
  dateFromParts (y, 1, d) = dateFromParts (y, 1, 1) + timedelta_days (d - 1).
Proof.
  unfold dateFromParts, days_from_civil, timedelta_days. simpl. lia.
Qed.

(** Two days with entries, one day apart from the day between them. *)
Lemma daily_gaps_one_between (s : datetime) (t1 t3 : Q) :
  daily_gaps (DailyData.mk s t1) [DailyData.mk (s + timedelta_days 2) t3]
  = [DailyData.mk (s + timedelta_days 1) 0%Q].
Proof.
  unfold daily_gaps, gaps. cbn [List.last List.map DailyData.date].
  replace (days (s + timedelta_days 2 - s)) with 2
    by (unfold days, timedelta_days, us_per_day;
        replace (s + 2 * 86400000000 - s) with (2 * 86400000000) by lia;
        by rewrite Z.div_mul).
  change (range 0 2) with [0; 1]. cbn [List.filter existsb].
  replace (s + timedelta_days 0 =? s) with true
    by (symmetry; apply Z.eqb_eq; unfold timedelta_days; lia).
  replace (s + timedelta_days 1 =? s) with false
    by (symmetry; apply Z.eqb_neq; unfold timedelta_days, us_per_day; lia).
  replace (s + timedelta_days 1 =? s + timedelta_days 2) with false
    by (symmetry; apply Z.eqb_neq; unfold timedelta_days, us_per_day; lia).
  done.
Qed.

Lemma sum_field_nil (field : Doc -> option Q) : sum_field field [] = 0%Q.
Proof. done. Qed.

Lemma in_range_1_5 (lo hi t : Q) :
  (lo <= 1.5)%Q -> (1.5 <= hi)%Q -> (t == 1.5)%Q ->
  Journal.out_of_range lo hi t = false.
Proof.
  intros Hlo Hhi Ht. unfold Journal.out_of_range.
  assert (H1 : Qle_bool lo t = true) by (apply Qle_bool_iff; by rewrite Ht).
  assert (H2 : Qle_bool t hi = true) by (apply Qle_bool_iff; by rewrite Ht).
  by rewrite H1, H2.
Qed.

End GapFacts.

Section GapFilling.
Import Calendar Py Mongo DBHelper World Derived ListFacts GroupFacts AuditFacts.
Import WaterAuditFacts GapFacts Scenarios.

(** C3. When every water entry is of the 1st or of the 3rd of January of
    one year and the entries of each of the two days total 1.5 litres,
    the derived daily totals are those of the 1st and of the 3rd followed
    by the 2nd with total 0, and [get_water_errors] flags the 2nd of
    January, with amount 0, and nothing else. *)
Theorem get_water_errors_fills_jan_2 (w : World) (y : Z) :
  let docs := find (db w) "WaterJournal" in
  let on_day := fun day : Z =>
    List.filter
      (fun d => parts_eqb (dateToParts (doc_timestamp d)) (y, 1, day)) docs in
  (forall d, In d docs ->
     dateToParts (doc_timestamp d) = (y, 1, 1)
     \/ dateToParts (doc_timestamp d) = (y, 1, 3)) ->
  (sum_field doc_water_amount (on_day 1%Z) == 1.5)%Q ->
  (sum_field doc_water_amount (on_day 3%Z) == 1.5)%Q ->
  (exists t1 t3,
     Journal.water_daily_data Journal.init w
     = Ok [DailyData.mk (dateFromParts (y, 1, 1)) t1;
           DailyData.mk (dateFromParts (y, 1, 3)) t3;
           DailyData.mk (dateFromParts (y, 1, 2)) 0%Q]
     /\ (t1 == 1.5)%Q /\ (t3 == 1.5)%Q)
  /\ Journal.get_water_errors Journal.init w
     = Ok [DailyData.mk (dateFromParts (y, 1, 2)) 0%Q].
Proof.
  intros docs on_day Hdays H1 H3.
  set (key := fun d : Doc => dateToParts (doc_timestamp d)).
  set (rows := group_sum parts_eqb key doc_water_amount docs).
  assert (Hsome : forall day, ~ (sum_field doc_water_amount (on_day day) == 0)%Q ->
                    exists d, In d docs /\ key d = (y, 1, day)).
  { intros day Hsum. destruct (on_day day) as [|d l] eqn:E.
    - exfalso. apply Hsum. reflexivity.
    - assert (Hd : In d (on_day day)) by (rewrite E; by left).
      apply List.filter_In in Hd as [Hd Hk]. apply parts_eqb_eq in Hk. eauto. }
  assert (Hkeys : forall k, In k (List.map fst rows)
                            <-> k = (y, 1, 1) \/ k = (y, 1, 3)).
  { intros k. unfold rows.
    rewrite (group_sum_In_key parts_eqb parts_eqb_eq). split.
    - intros (d & Hd & <-). by apply Hdays.
    - intros [->| ->]; apply Hsome.
      + rewrite H1. discriminate.
      + rewrite H3. discriminate. }
  destruct (two_keys_rows rows (y, 1, 1) (y, 1, 3)) as (t1 & t3 & Hrows).
  { intros E. injection E. lia. }
  { apply (group_sum_NoDup parts_eqb parts_eqb_eq). }
  { exact Hkeys. }
  assert (Ht1 : t1 = sum_field doc_water_amount (on_day 1)).
  { apply (group_sum_total parts_eqb parts_eqb_eq key doc_water_amount docs).
    fold rows. destruct Hrows as [-> | ->]; simpl; tauto. }
  assert (Ht3 : t3 = sum_field doc_water_amount (on_day 3)).
  { apply (group_sum_total parts_eqb parts_eqb_eq key doc_water_amount docs).
    fold rows. destruct Hrows as [-> | ->]; simpl; tauto. }
  rewrite <- Ht1 in H1. rewrite <- Ht3 in H3.
  assert (Hexisting :
            Journal.existing_daily_data Journal.init w
            = [DailyData.mk (dateFromParts (y, 1, 1)) t1;
               DailyData.mk (dateFromParts (y, 1, 3)) t3]).
  { unfold Journal.existing_daily_data, sum_field_by_date.
    change (find (db w) (Journal.water_journal Journal.init)) with docs.
    change (group_sum parts_eqb _ doc_water_amount docs) with rows.
    rewrite (dateFromParts_january y 3).
    destruct Hrows as [-> | ->]; cbn [List.map day_date day_total];
      rewrite (dateFromParts_january y 3);
      unfold sort_by; cbn [List.fold_right insert_by DailyData.date];
      match goal with
      | |- context [?a <=? ?b] =>
          destruct (Z.leb_spec a b) as [Hle|Hgt]; [|];
          unfold timedelta_days, us_per_day in *; try lia; done
      end. }
  assert (Hgaps :
            daily_gaps (DailyData.mk (dateFromParts (y, 1, 1)) t1)
                       [DailyData.mk (dateFromParts (y, 1, 3)) t3]
            = [DailyData.mk (dateFromParts (y, 1, 2)) 0%Q]).
  { rewrite (dateFromParts_january y 3), (dateFromParts_january y 2).
    apply daily_gaps_one_between. }
  split.
  - exists t1, t3. rewrite water_daily_data_eq, Hexisting, Hgaps. done.
  - rewrite get_water_errors_eq, Hexisting, Hgaps.
    cbn [List.filter DailyData.amount Journal.min_water Journal.max_water
         Journal.init].
    rewrite (in_range_1_5 1 2 t1), (in_range_1_5 1 2 t3)
      by (done || discriminate).
    done.
Qed.

Lemma get_water_errors_fills_jan_2_witness :
  Journal.get_water_errors Journal.init jan_1_and_jan_3
  = Ok [DailyData.mk (dateFromParts (2024, 1, 2)) 0%Q].
Proof.
  apply (get_water_errors_fills_jan_2 jan_1_and_jan_3 2024).
  - intros d Hd. vm_compute in Hd.
    destruct Hd as [<-|[<-|[<-|[]]]]; vm_compute; tauto.
  - vm_compute. reflexivity.
  - vm_compute. reflexivity.
Defined.

End GapFilling.


(** * Further properties *)

From Stdlib Require Import Lqa.

(** ** Sums and quotas *)

Module SumFacts.
Import Calendar Py Mongo DBHelper World Derived Notions.

Lemma acc_sum_nonneg (total : Q) (x : option Q) :
  (0 <= total)%Q -> (forall q, x = Some q -> (0 <= q)%Q) ->
  (0 <= acc_sum total x)%Q.
Proof.
  intros Ht Hx. destruct x as [q|]; simpl; [|exact Ht].
  specialize (Hx q eq_refl).
  rewrite <- (Qplus_0_r 0). by apply Qplus_le_compat.
Qed.

Lemma fold_acc_sum_nonneg (field : Doc -> option Q) (docs : list Doc) (t0 : Q) :
  (0 <= t0)%Q -> nonneg_amounts field docs ->
  (0 <= List.fold_left (fun total d => acc_sum total (field d)) docs t0)%Q.
Proof.
  revert t0. induction docs as [|d docs IH]; intros t0 H0 Hnn; simpl;
    [exact H0|].
  apply IH.
  - apply acc_sum_nonneg; [exact H0|]. intros q Hq.
    apply (Hnn d q); [by left | exact Hq].
  - intros d' q Hd. apply Hnn. by right.
Qed.

Lemma sum_field_nonneg (field : Doc -> option Q) (docs : list Doc) :
  nonneg_amounts field docs -> (0 <= sum_field field docs)%Q.
Proof. apply fold_acc_sum_nonneg, Qle_refl. Qed.

Lemma nonneg_amounts_filter field (p : Doc -> bool) docs :
  nonneg_amounts field docs -> nonneg_amounts field (List.filter p docs).
Proof.
  intros H d q Hd. apply List.filter_In in Hd as [Hd _]. by apply H.
Qed.

Lemma sum_field_snoc (field : Doc -> option Q) (docs : list Doc) (d : Doc) :
  sum_field field (docs ++ [d]) = acc_sum (sum_field field docs) (field d).
Proof. unfold sum_field. by rewrite List.fold_left_app. Qed.

Lemma used_since_snoc field threshold docs d :
  used_since field threshold (docs ++ [d])
  = if threshold <=? doc_timestamp d
    then acc_sum (used_since field threshold docs) (field d)
    else used_since field threshold docs.
Proof.
  unfold used_since. rewrite List.filter_app. cbn [List.filter].
  destruct (threshold <=? doc_timestamp d).
  - apply sum_field_snoc.
  - by rewrite app_nil_r.
Qed.

Lemma get_required_amount_of_water_used (self : Journal.t) (now : datetime)
      (w : World) :
  Journal.get_required_amount_of_water self now w
  = let used := used_since doc_water_amount (water_threshold now)
                           (find (db w) (Journal.water_journal self)) in
    if Qle_bool (Journal.max_water self) used then 0%Q
    else (Journal.max_water self - used)%Q.
Proof.
  unfold Journal.get_required_amount_of_water.
  by rewrite QuotaFacts.sum_by_field_value_sum_field.
Qed.

Lemma get_number_of_branches_to_cut_used (self : Journal.t) (now : datetime)
      (w : World) :
  Journal.get_number_of_branches_to_cut self now w
  = let used := used_since doc_number_of_branches (cut_threshold now)
                           (find (db w) (Journal.cut_journal self)) in
    if Qle_bool (Journal.max_branches self) used then 0%Q
    else (Journal.max_branches self - used)%Q.
Proof.
  unfold Journal.get_number_of_branches_to_cut.
  by rewrite QuotaFacts.sum_by_field_value_sum_field.
Qed.

(** The shape shared by the two quotas. *)
Lemma quota_cases (maximum used : Q) :
  let r := if Qle_bool maximum used then 0%Q else (maximum - used)%Q in
  (r == Qmax 0 (maximum - used))%Q
  /\ (0 <= r)%Q
  /\ ((0 <= used)%Q -> (0 <= maximum)%Q -> (r <= maximum)%Q)
  /\ (truthy r = true <-> (used < maximum)%Q)
  /\ (truthy r = false -> r = 0%Q).
Proof.
  intros r. subst r. destruct (Qle_bool maximum used) eqn:E.
  - apply Qle_bool_iff in E.
    split; [|split; [|split; [|split]]].
    + rewrite Q.max_l; [reflexivity|].
      apply (Qplus_le_l _ _ used). ring_simplify. exact E.
    + apply Qle_refl.
    + by intros _ H.
    + split; [discriminate|]. intros H. exfalso.
      eapply Qlt_irrefl, Qlt_le_trans; eauto.
    + done.
  - assert (Hlt : (used < maximum)%Q).
    { apply Qnot_le_lt. intros H. apply Qle_bool_iff in H. congruence. }
    assert (Hpos : (0 < maximum - used)%Q).
    { apply (Qplus_lt_l _ _ used). ring_simplify. exact Hlt. }
    split; [|split; [|split; [|split]]].
    + rewrite Q.max_r; [reflexivity|]. by apply Qlt_le_weak.
    + by apply Qlt_le_weak.
    + intros Hu _. apply (Qplus_le_l _ _ used). ring_simplify.
      rewrite <- (Qplus_0_r maximum) at 1. by apply Qplus_le_compat; [apply Qle_refl|].
    + split; [done|]. intros _. by apply truthy_pos.
    + intros H. rewrite (truthy_pos _ Hpos) in H. discriminate.
Qed.

Lemma monday_is_monday (today : datetime) :
  let monday_date := today - timedelta_days (weekday today) in
  weekday monday_date = 0 /\ 0 <= today - monday_date < 7 * us_per_day.
Proof.
  unfold weekday, timedelta_days. cbv zeta.
  set (k := (today / us_per_day + 3) mod 7).
  assert (Hk : 0 <= k < 7) by (apply Z.mod_pos_bound; lia).
  replace (today - k * us_per_day) with (today + (- k) * us_per_day) by lia.
  rewrite Z.div_add by done.
  split; [|unfold us_per_day; lia].
  subst k. Z.div_mod_to_equations. lia.
Qed.

End SumFacts.

Section Quotas.
Import Calendar Py Mongo DBHelper World Derived Notions SumFacts.

(** X1. [sum_by_field_value] is the sum of the field over the documents
    whose date field stands in the given relation to the value, the value
    taken in whole milliseconds; a document without the field counts for
    nothing, and with no matching document the result is 0. *)
Theorem sum_by_field_value_is_filtered_sum
        (collection : list Doc) (field_to_match : Doc -> datetime)
        (value : datetime) (field_to_sum : Doc -> option Q)
        (operator : option Operator) :
  let matching :=
    List.filter
      (fun d => matches operator (field_to_match d) (bson_datetime value))
      collection in
  sum_by_field_value collection field_to_match value field_to_sum operator
  = sum_field field_to_sum matching
  /\ (matching = [] ->
      sum_by_field_value collection field_to_match value field_to_sum operator
      = 0%Q)
  /\ ((forall d, In d matching -> field_to_sum d = None) ->
      sum_by_field_value collection field_to_match value field_to_sum operator
      = 0%Q).
Proof.
  intros matching. rewrite QuotaFacts.sum_by_field_value_sum_field.
  fold matching. split; [done|]. split.
  - by intros ->.
  - intros Hnone. unfold sum_field. generalize 0%Q as t0.
    induction matching as [|d l IH]; intros t0; [done|].
    simpl. rewrite (Hnone d) by (by left). simpl.
    apply IH. intros d' Hd'. apply Hnone. by right.
Qed.

(** X2. [get_required_amount_of_water] is [max_water] less the water of
    the entries stamped at or after [today], and 0 when that is not
    positive: it is never negative, it is at most [max_water] when no
    stored amount is negative, and it is nonzero exactly when less than
    [max_water] has been used. *)
Theorem get_required_amount_of_water_range (now : datetime) (w : World) :
  let used := used_since doc_water_amount (water_threshold now)
                         (find (db w) "WaterJournal") in
  let r := Journal.get_required_amount_of_water Journal.init now w in
  (r == Qmax 0 (2 - used))%Q
  /\ (0 <= r)%Q
  /\ (truthy r = true <-> (used < 2)%Q)
  /\ (nonneg_amounts doc_water_amount (find (db w) "WaterJournal") ->
      (r <= 2)%Q).
Proof.
  intros used r. subst r. rewrite get_required_amount_of_water_used.
  change (Journal.water_journal Journal.init) with "WaterJournal"%string.
  fold used. cbv zeta.
  destruct (quota_cases (Journal.max_water Journal.init) used)
    as (H1 & H2 & H3 & H4 & _).
  split; [exact H1|]. split; [exact H2|]. split; [exact H4|].
  intros Hnn. apply H3; [|done].
  apply sum_field_nonneg, nonneg_amounts_filter, Hnn.
Qed.

Lemma get_required_amount_of_water_range_witness :
  (Journal.get_required_amount_of_water Journal.init
     Scenarios.noon_and_a_half Scenarios.jan_1_and_jan_3 <= 2)%Q.
Proof.
  apply (get_required_amount_of_water_range
           Scenarios.noon_and_a_half Scenarios.jan_1_and_jan_3).
  intros d q Hd Hq. vm_compute in Hd.
  destruct Hd as [<-|[<-|[<-|[]]]]; injection Hq as <-; discriminate.
Defined.

(** X3. [get_number_of_branches_to_cut] counts the entries stamped at or
    after [monday_date], which falls on a Monday at most six days before
    [today]; the result is [max_branches] less the branches counted, and 0
    when that is not positive, so it is never negative. *)
Theorem get_number_of_branches_to_cut_range (now : datetime) (w : World) :
  let today := replace_hms_zero now in
  let monday_date := today - timedelta_days (weekday today) in
  let used := used_since doc_number_of_branches (bson_datetime monday_date)
                         (find (db w) "CutJournal") in
  let r := Journal.get_number_of_branches_to_cut Journal.init now w in
  weekday monday_date = 0
  /\ 0 <= today - monday_date < 7 * us_per_day
  /\ (r == Qmax 0 (8 - used))%Q
  /\ (0 <= r)%Q
  /\ (truthy r = true <-> (used < 8)%Q).
Proof.
  intros today monday_date used r.
  destruct (monday_is_monday today) as [Hm Hd].
  split; [exact Hm|]. split; [exact Hd|].
  subst r. rewrite get_number_of_branches_to_cut_used.
  change (Journal.cut_journal Journal.init) with "CutJournal"%string.
  change (cut_threshold now) with (bson_datetime monday_date).
  fold used. cbv zeta.
  destruct (quota_cases (Journal.max_branches Journal.init) used)
    as (H1 & H2 & _ & H4 & _).
  done.
Qed.

End Quotas.

(** ** The care actions *)

Module CareFacts.
Import Calendar Py Mongo DBHelper Robots World Derived Notions SumFacts.
Import StoreFacts.

Lemma append_only_refl (w : World) : append_only w w.
Proof. intros name. exists []. by rewrite app_nil_r. Qed.

Lemma append_only_trans (w1 w2 w3 : World) :
  append_only w1 w2 -> append_only w2 w3 -> append_only w1 w3.
Proof.
  intros H12 H23 name. destruct (H12 name) as [a Ha], (H23 name) as [b Hb].
  exists (a ++ b). by rewrite Hb, Ha, app_assoc.
Qed.

Lemma append_only_print line (w : World) : append_only w (print line w).
Proof. exact (append_only_refl w). Qed.

Lemma append_only_update self robot data (w : World) :
  append_only w (Journal.update self robot data w).
Proof.
  intros name. unfold Journal.update, with_db. cbn [db].
  set (target := if isinstance_CutRobot robot then _ else _).
  destruct (decide (target = name)) as [<-|Hne].
  - eexists. apply find_insert_one_eq.
  - exists []. rewrite find_insert_one_ne by done. by rewrite app_nil_r.
Qed.

Lemma append_only_water_tree self journal today now (w : World) :
  append_only w (WaterRobot.water_tree self journal today now w).2.
Proof.
  unfold WaterRobot.water_tree.
  destruct (truthy _); [destruct (Qle_bool _ _)|]; cbn [snd].
  - apply append_only_update.
  - apply append_only_refl.
  - apply append_only_print.
Qed.

Lemma append_only_cut_branches self journal today now (w : World) :
  append_only w (CutRobot.cut_branches self journal today now w).
Proof.
  unfold CutRobot.cut_branches. destruct (truthy _).
  - apply append_only_update.
  - apply append_only_print.
Qed.

(** The required amount after one more water entry in the same window. *)
Lemma required_after_watering (journal : Journal.t) (today today' : datetime)
      (data : Data) (robot : AnyRobot) (w : World) :
  isinstance_CutRobot robot = false ->
  water_threshold today' = water_threshold today ->
  water_threshold today <= bson_datetime (timestamp data) ->
  water_amount data
  = Some (Journal.get_required_amount_of_water journal today w) ->
  truthy (Journal.get_required_amount_of_water journal today w) = true ->
  Journal.get_required_amount_of_water journal today'
    (Journal.update journal robot data w) = 0%Q.
Proof.
  intros Hrobot Hday Hstamp Hamount Htruthy.
  rewrite get_required_amount_of_water_used in Hamount, Htruthy |- *.
  cbv zeta in *. unfold Journal.update, with_db. rewrite Hrobot. cbn [db].
  rewrite find_insert_one_eq, used_since_snoc, Hday.
  change (doc_timestamp (mkDoc (next_oid (db w)) (bson data)))
    with (bson_datetime (timestamp data)).
  change (doc_water_amount (mkDoc (next_oid (db w)) (bson data)))
    with (water_amount data).
  replace (water_threshold today <=? bson_datetime (timestamp data)) with true
    by (symmetry; by apply Z.leb_le).
  rewrite Hamount. cbn [acc_sum].
  set (used := used_since doc_water_amount (water_threshold today)
                          (find (db w) (Journal.water_journal journal))) in *.
  destruct (Qle_bool (Journal.max_water journal) used) eqn:E.
  { by vm_compute in Htruthy. }
  replace (Qle_bool (Journal.max_water journal)
                    (used + (Journal.max_water journal - used))) with true;
    [done|].
  symmetry. apply Qle_bool_iff. ring_simplify. apply Qle_refl.
Qed.

Lemma required_after_cutting (journal : Journal.t) (today today' : datetime)
      (data : Data) (robot : AnyRobot) (w : World) :
  isinstance_CutRobot robot = true ->
  cut_threshold today' = cut_threshold today ->
  cut_threshold today <= bson_datetime (timestamp data) ->
  number_of_branches data
  = Some (Journal.get_number_of_branches_to_cut journal today w) ->
  truthy (Journal.get_number_of_branches_to_cut journal today w) = true ->
  Journal.get_number_of_branches_to_cut journal today'
    (Journal.update journal robot data w) = 0%Q.
Proof.
  intros Hrobot Hday Hstamp Hamount Htruthy.
  rewrite get_number_of_branches_to_cut_used in Hamount, Htruthy |- *.
  cbv zeta in *. unfold Journal.update, with_db. rewrite Hrobot. cbn [db].
  rewrite find_insert_one_eq, used_since_snoc, Hday.
  change (doc_timestamp (mkDoc (next_oid (db w)) (bson data)))
    with (bson_datetime (timestamp data)).
  change (doc_number_of_branches (mkDoc (next_oid (db w)) (bson data)))
    with (number_of_branches data).
  replace (cut_threshold today <=? bson_datetime (timestamp data)) with true
    by (symmetry; by apply Z.leb_le).
  rewrite Hamount. cbn [acc_sum].
  set (used := used_since doc_number_of_branches (cut_threshold today)
                          (find (db w) (Journal.cut_journal journal))) in *.
  destruct (Qle_bool (Journal.max_branches journal) used) eqn:E.
  { by vm_compute in Htruthy. }
  replace (Qle_bool (Journal.max_branches journal)
                    (used + (Journal.max_branches journal - used))) with true;
    [done|].
  symmetry. apply Qle_bool_iff. ring_simplify. apply Qle_refl.
Qed.

Lemma required_nonneg (journal : Journal.t) (today : datetime) (w : World) :
  (0 <= Journal.get_required_amount_of_water journal today w)%Q.
Proof.
  rewrite get_required_amount_of_water_used. cbv zeta.
  apply (quota_cases (Journal.max_water journal)).
Qed.

Lemma required_falsy_zero (journal : Journal.t) (today : datetime) (w : World) :
  truthy (Journal.get_required_amount_of_water journal today w) = false ->
  Journal.get_required_amount_of_water journal today w = 0%Q.
Proof.
  rewrite get_required_amount_of_water_used. cbv zeta.
  apply (quota_cases (Journal.max_water journal)).
Qed.

Lemma branches_falsy_zero (journal : Journal.t) (today : datetime) (w : World) :
  truthy (Journal.get_number_of_branches_to_cut journal today w) = false ->
  Journal.get_number_of_branches_to_cut journal today w = 0%Q.
Proof.
  rewrite get_number_of_branches_to_cut_used. cbv zeta.
  apply (quota_cases (Journal.max_branches journal)).
Qed.

Lemma required_print journal today line (w : World) :
  Journal.get_required_amount_of_water journal today (print line w)
  = Journal.get_required_amount_of_water journal today w.
Proof. done. Qed.

Lemma required_same_window journal today today' (w : World) :
  water_threshold today' = water_threshold today ->
  Journal.get_required_amount_of_water journal today' w
  = Journal.get_required_amount_of_water journal today w.
Proof.
  intros H. rewrite !get_required_amount_of_water_used. by rewrite H.
Qed.

Lemma branches_same_window journal today today' (w : World) :
  cut_threshold today' = cut_threshold today ->
  Journal.get_number_of_branches_to_cut journal today' w
  = Journal.get_number_of_branches_to_cut journal today w.
Proof.
  intros H. rewrite !get_number_of_branches_to_cut_used. by rewrite H.
Qed.

End CareFacts.

Module WaterFacts.
Import Calendar Py Mongo DBHelper Robots World Derived Notions SumFacts.
Import StoreFacts CareFacts.

(** With at least [max_water] in the tank and no negative amount in the
    store, [water_tree] does not raise. *)
Lemma water_tree_enough_level self today now (w : World) :
  (2 <= _water_level self)%Q ->
  nonneg_amounts doc_water_amount (find (db w) "WaterJournal") ->
  (WaterRobot.water_tree self Journal.init today now w).1.1 = Ok tt.
Proof.
  intros Hlevel Hnn. unfold WaterRobot.water_tree.
  destruct (truthy _); [|done].
  replace (Qle_bool _ (_water_level self)) with true; [done|].
  symmetry. apply Qle_bool_iff.
  eapply Qle_trans; [|exact Hlevel].
  rewrite get_required_amount_of_water_used. cbv zeta.
  apply (quota_cases (Journal.max_water Journal.init)); [|done].
  apply sum_field_nonneg, nonneg_amounts_filter, Hnn.
Qed.

Lemma water_tree_level self journal today now (w : World) :
  let out := WaterRobot.water_tree self journal today now w in
  _volume out.1.2 = _volume self
  /\ water_base out.1.2 = water_base self
  /\ (_water_level out.1.2 <= _water_level self)%Q
  /\ ((0 <= _water_level self)%Q -> (0 <= _water_level out.1.2)%Q).
Proof.
  unfold WaterRobot.water_tree.
  pose proof (required_nonneg journal today w) as Hr.
  destruct (truthy _); [destruct (Qle_bool _ _) eqn:E|]; cbn [fst snd];
    cbn [_volume water_base _water_level];
    (split; [done|]); (split; [done|]).
  - apply Qle_bool_iff in E. split; [|intros _]; lra.
  - split; [apply Qle_refl|done].
  - split; [apply Qle_refl|done].
Qed.

End WaterFacts.

Section CareActions.
Import Calendar Py Mongo DBHelper Robots World Derived Notions SumFacts.
Import StoreFacts CareFacts WaterFacts TankVolume.

(** X4. [water_tree] keeps the water level within the tank: if the level
    is between 0 and the volume before the call, it is so after it,
    whatever the outcome; the level never rises, and the volume and the
    identifier of the robot are not touched. *)
Theorem water_tree_keeps_level_in_tank (self : Robots.WaterRobot)
        (journal : Journal.t) (today now : datetime) (w : World) :
  (0 <= _water_level self)%Q -> (_water_level self <= _volume self)%Q ->
  let '(res, self', w') := WaterRobot.water_tree self journal today now w in
  (0 <= _water_level self')%Q
  /\ (_water_level self' <= _volume self')%Q
  /\ (_water_level self' <= _water_level self)%Q
  /\ _volume self' = _volume self
  /\ WaterRobot.id_number self' = WaterRobot.id_number self.
Proof.
  intros H0 Hv.
  pose proof (water_tree_level self journal today now w) as H. cbv zeta in H.
  destruct (WaterRobot.water_tree self journal today now w) as [[res self'] w'].
  cbn [fst snd] in H. destruct H as (Hvol & Hbase & Hle & Hpos).
  split; [by apply Hpos|]. split; [|split; [exact Hle|]].
  - rewrite Hvol. eapply Qle_trans; eauto.
  - split; [exact Hvol|]. unfold WaterRobot.id_number. by rewrite Hbase.
Qed.

Lemma water_tree_keeps_level_in_tank_witness :
  let '(res, self', w') :=
    WaterRobot.water_tree (refill_tank (WaterRobot_new (IdStr "w1") 5%Q))
                          Journal.init 0 0 empty_world in
  (0 <= _water_level self')%Q /\ (_water_level self' <= _volume self')%Q.
Proof.
  pose proof (water_tree_keeps_level_in_tank
                (refill_tank (WaterRobot_new (IdStr "w1") 5%Q))
                Journal.init 0 0 empty_world) as H.
  destruct (WaterRobot.water_tree _ _ _ _ _) as [[res self'] w'].
  destruct H as (H1 & H2 & _); [discriminate | discriminate | done].
Defined.

(** X5. Once the entries stamped at or after [today] total [max_water] or
    more, [water_tree] pours nothing: the robot and the database are as
    before and the one effect is the line printed. *)
Theorem water_tree_when_quota_is_used (self : Robots.WaterRobot)
        (journal : Journal.t) (today now : datetime) (w : World) :
  (Journal.max_water journal
   <= used_since doc_water_amount (water_threshold today)
                 (find (db w) (Journal.water_journal journal)))%Q ->
  WaterRobot.water_tree self journal today now w
  = (Ok tt, self, print "Tree is already watered" w).
Proof.
  intros Hused. unfold WaterRobot.water_tree.
  rewrite get_required_amount_of_water_used. cbv zeta.
  apply Qle_bool_iff in Hused. by rewrite Hused.
Qed.

Lemma water_tree_when_quota_is_used_witness :
  WaterRobot.water_tree (WaterRobot_new (IdStr "w1") 5%Q) Journal.init
                        (mk_datetime 2024 1 1 12 0 0 0) 0
                        Scenarios.watered_after_midnight
  = (Ok tt, WaterRobot_new (IdStr "w1") 5%Q,
     print "Tree is already watered" Scenarios.watered_after_midnight).
Proof.
  apply water_tree_when_quota_is_used. vm_compute. discriminate.
Defined.

(** X6. A watering that succeeds uses up the day: when its entry is
    stamped within the window it counted, a second [water_tree] in the
    same window pours nothing and stores nothing, whatever the tank
    holds. *)
Theorem water_tree_twice_in_one_window (self : Robots.WaterRobot)
        (journal : Journal.t) (today now today' now' : datetime) (w : World) :
  water_threshold today' = water_threshold today ->
  water_threshold today <= bson_datetime now ->
  let '(res1, self1, w1) := WaterRobot.water_tree self journal today now w in
  res1 = Ok tt ->
  WaterRobot.water_tree self1 journal today' now' w1
  = (Ok tt, self1, print "Tree is already watered" w1).
Proof.
  intros Hday Hstamp. unfold WaterRobot.water_tree at 1.
  destruct (truthy (Journal.get_required_amount_of_water journal today w))
    eqn:Ht; [destruct (Qle_bool _ _)|]; [|discriminate|]; intros _.
  - unfold WaterRobot.water_tree.
    rewrite (required_after_watering journal today today'); done.
  - unfold WaterRobot.water_tree.
    rewrite required_print, (required_same_window journal today today') by done.
    by rewrite Ht.
Qed.

Lemma water_tree_twice_in_one_window_witness :
  let '(res1, self1, w1) :=
    WaterRobot.water_tree (refill_tank (WaterRobot_new (IdStr "w1") 5%Q))
                          Journal.init
                          (mk_datetime 2024 1 1 8 0 0 0)
                          (mk_datetime 2024 1 1 8 0 0 1000) empty_world in
  WaterRobot.water_tree self1 Journal.init
                        (mk_datetime 2024 1 1 20 0 0 0)
                        (mk_datetime 2024 1 1 20 0 0 1000) w1
  = (Ok tt, self1, print "Tree is already watered" w1).
Proof.
  pose proof (water_tree_twice_in_one_window
                (refill_tank (WaterRobot_new (IdStr "w1") 5%Q)) Journal.init
                (mk_datetime 2024 1 1 8 0 0 0) (mk_datetime 2024 1 1 8 0 0 1000)
                (mk_datetime 2024 1 1 20 0 0 0)
                (mk_datetime 2024 1 1 20 0 0 1000) empty_world) as H.
  destruct (WaterRobot.water_tree _ _ (mk_datetime 2024 1 1 8 0 0 0) _ _)
    as [[res1 self1] w1] eqn:E.
  apply H; [reflexivity | vm_compute; discriminate |].
  vm_compute in E. by injection E as <- _ _.
Defined.


(** X8. A cut uses up the week: when its entry is stamped within the
    window it counted, a second [cut_branches] in the same window stores
    nothing. *)
Theorem cut_branches_twice_in_one_window (self : Robots.CutRobot)
        (journal : Journal.t) (today now today' now' : datetime) (w : World) :
  cut_threshold today' = cut_threshold today ->
  cut_threshold today <= bson_datetime now ->
  let w1 := CutRobot.cut_branches self journal today now w in
  CutRobot.cut_branches self journal today' now' w1
  = print "No branches to cut" w1.
Proof.
  intros Hday Hstamp w1.
  assert (H0 : Journal.get_number_of_branches_to_cut journal today' w1 = 0%Q).
  { subst w1. unfold CutRobot.cut_branches.
    destruct (truthy (Journal.get_number_of_branches_to_cut journal today w))
      eqn:Ht.
    - by apply (required_after_cutting journal today today').
    - change (Journal.get_number_of_branches_to_cut journal today'
                (print "No branches to cut" w))
        with (Journal.get_number_of_branches_to_cut journal today' w).
      rewrite (branches_same_window journal today today') by done.
      by apply branches_falsy_zero. }
  unfold CutRobot.cut_branches at 1. by rewrite H0.
Qed.

Lemma cut_branches_twice_in_one_window_witness :
  let w1 := Scripts.cutting_script (mk_datetime 2024 1 2 8 0 0 0)
                                   (mk_datetime 2024 1 2 8 0 0 1000)
                                   empty_world in
  Scripts.cutting_script (mk_datetime 2024 1 5 8 0 0 0)
                         (mk_datetime 2024 1 5 8 0 0 1000) w1
  = print "No branches to cut" w1.
Proof.
  apply (cut_branches_twice_in_one_window
           (CutRobot_new (IdStr "c1")) Journal.init).
  - reflexivity.
  - vm_compute. discriminate.
Defined.

(** X9. The journal is append-only: after [water_tree], [cut_branches]
    or either script, every collection consists of the documents it held
    before, unchanged and in the same order, possibly followed by new
    ones. *)
Theorem care_actions_append_only (w : World) :
  (forall self journal today now,
     append_only w (WaterRobot.water_tree self journal today now w).2)
  /\ (forall self journal today now,
        append_only w (CutRobot.cut_branches self journal today now w))
  /\ (forall today1 now1 today2 now2,
        append_only w (Scripts.watering_script today1 now1 today2 now2 w).2)
  /\ (forall today now, append_only w (Scripts.cutting_script today now w)).
Proof.
  split; [intros; apply append_only_water_tree|].
  split; [intros; apply append_only_cut_branches|].
  split; [|intros; apply append_only_cut_branches].
  intros today1 now1 today2 now2. unfold Scripts.watering_script.
  pose proof (append_only_water_tree (WaterRobot_new (IdStr "w1") 5%Q)
                Journal.init today1 now1 w) as H1.
  destruct (WaterRobot.water_tree _ _ today1 now1 w) as [[res r1] w1].
  cbn [snd] in H1.
  destruct res as [[]|[| |level amount]]; cbn [snd]; try exact H1.
  eapply append_only_trans; [exact H1|]. apply append_only_water_tree.
Qed.

(** X10. On a store without negative water amounts the watering script
    does not fail: whatever the clock reads, it ends without an exception
    and with a water level between 0 and the 5 litres of the tank. *)
Theorem watering_script_succeeds (today1 now1 today2 now2 : datetime)
        (w : World) :
  nonneg_amounts doc_water_amount (find (db w) "WaterJournal") ->
  let '(res, robot, w') :=
    Scripts.watering_script today1 now1 today2 now2 w in
  res = Ok tt
  /\ (0 <= _water_level robot)%Q /\ (_water_level robot <= 5)%Q.
Proof.
  intros Hnn. unfold Scripts.watering_script.
  set (fresh := WaterRobot_new (IdStr "w1") 5%Q).
  unfold WaterRobot.water_tree at 1.
  destruct (truthy (Journal.get_required_amount_of_water Journal.init today1 w))
    eqn:Ht.
  - replace (Qle_bool _ (_water_level fresh)) with false.
    2:{ symmetry. destruct (Qle_bool _ _) eqn:E; [|done].
        apply Qle_bool_iff in E. exfalso.
        apply (truthy_true_neq _ Ht). apply Qle_antisym; [exact E|].
        apply required_nonneg. }
    pose proof (water_tree_enough_level (refill_tank fresh) today2 now2 w
                  ltac:(discriminate) Hnn) as Hok.
    pose proof (water_tree_level (refill_tank fresh) Journal.init today2 now2 w)
      as Hl. cbv zeta in Hl.
    destruct (WaterRobot.water_tree (refill_tank fresh) _ _ _ _)
      as [[res robot] w'].
    cbn [fst snd] in *. destruct Hl as (_ & _ & Hle & Hpos).
    split; [exact Hok|]. split; [apply Hpos; discriminate | exact Hle].
  - split; [done|]. split; discriminate.
Qed.

Lemma watering_script_succeeds_witness :
  (Scripts.watering_script 0 0 0 0 Scenarios.jan_1_and_jan_3).1.1 = Ok tt.
Proof.
  pose proof (watering_script_succeeds 0 0 0 0 Scenarios.jan_1_and_jan_3) as H.
  destruct (Scripts.watering_script 0 0 0 0 Scenarios.jan_1_and_jan_3)
    as [[res robot] w'].
  apply H. intros d q Hd Hq. vm_compute in Hd.
  destruct Hd as [<-|[<-|[<-|[]]]]; injection Hq as <-; discriminate.
Defined.

(** X11. After [refill_tank] a robot whose tank holds at least
    [max_water] waters without [NotEnoughWaterError], on any store
    without negative water amounts. *)
Theorem refilled_robot_waters (self : Robots.WaterRobot)
        (today now : datetime) (w : World) :
  (2 <= _volume self)%Q ->
  nonneg_amounts doc_water_amount (find (db w) "WaterJournal") ->
  _water_level (refill_tank self) = _volume self
  /\ (WaterRobot.water_tree (refill_tank self) Journal.init today now w).1.1
     = Ok tt.
Proof.
  intros Hvol Hnn. split; [done|]. by apply water_tree_enough_level.
Qed.

Lemma refilled_robot_waters_witness :
  (WaterRobot.water_tree (refill_tank (WaterRobot_new (IdStr "w1") 5%Q))
                         Journal.init 0 0 empty_world).1.1 = Ok tt.
Proof.
  apply (refilled_robot_waters (WaterRobot_new (IdStr "w1") 5%Q) 0 0 empty_world).
  - discriminate.
  - intros d q Hd. by vm_compute in Hd.
Defined.


End CareActions.

(** ** More on the ordering audit *)

Module InversionFacts.
Import Calendar Py Mongo World Derived ListFacts OrderingFacts.

Lemma docs_eqb_timestamps (l1 l2 : list Doc) :
  Journal.docs_eqb l1 l2 = true ->
  List.map doc_timestamp l1 = List.map doc_timestamp l2.
Proof.
  revert l2. induction l1 as [|a l1 IH]; intros [|b l2] H; try done.
  simpl in H. apply andb_prop in H as [Hab H].
  unfold Journal.doc_eqb in Hab.
  repeat (apply andb_prop in Hab as [Hab ?]).
  simpl. f_equal; [by apply Z.eqb_eq | by apply IH].
Qed.

(** No entry is flagged exactly when no timestamp is followed by a
    smaller one. *)
Lemma inversions_nil_iff (l : list Doc) :
  inversions l = [] <-> Sorted Z.le (List.map doc_timestamp l).
Proof.
  induction l as [|a l IH]; [split; [constructor|done]|].
  destruct l as [|b l].
  - split; [repeat constructor | done].
  - cbn [inversions]. cbn [List.map] in *.
    destruct (Z.ltb_spec (doc_timestamp b) (doc_timestamp a)) as [Hlt|Hge].
    + split; [discriminate|]. intros H.
      apply Sorted_inv in H as [_ H]. apply HdRel_inv in H. lia.
    + rewrite IH. split.
      * intros H. constructor; [exact H|]. by constructor.
      * intros H. by apply Sorted_inv in H as [H _].
Qed.

Lemma sorted_timestamps (l : list Doc) :
  StronglySorted (key_le doc_timestamp) l ->
  Sorted Z.le (List.map doc_timestamp l).
Proof.
  intros H. apply StronglySorted_Sorted.
  induction H as [|a l Hs IH Hall]; simpl; constructor; [exact IH|].
  apply List.Forall_forall. intros t Ht.
  apply List.in_map_iff in Ht as (b & <- & Hb).
  rewrite List.Forall_forall in Hall. by apply Hall.
Qed.

(** The comparison of the two sorted lists changes nothing. *)
Lemma ordering_errors_of_inversions (docs : list Doc) :
  ordering_errors_of docs = inversions (sort_asc _id docs).
Proof.
  unfold ordering_errors_of.
  destruct (Journal.docs_eqb _ _) eqn:E; cbn [negb].
  - symmetry. apply inversions_nil_iff.
    rewrite (docs_eqb_timestamps _ _ E).
    apply sorted_timestamps, sort_by_sorted.
  - apply flagged_inversions.
Qed.

Lemma inversions_In (l : list Doc) (oid : ObjectId) :
  In oid (inversions l)
  <-> exists i a b, l !! i = Some a /\ l !! S i = Some b
                    /\ doc_timestamp b < doc_timestamp a /\ oid = _id a.
Proof.
  induction l as [|a l IH].
  - split; [done|]. intros (i & x & y & H & _). done.
  - destruct l as [|b l].
    + split; [done|]. intros (i & x & y & _ & H & _).
      by destruct i.
    + cbn [inversions].
      assert (Hrest : In oid (inversions (b :: l))
                      <-> exists i x y, (a :: b :: l) !! S i = Some x
                                        /\ (a :: b :: l) !! S (S i) = Some y
                                        /\ doc_timestamp y < doc_timestamp x
                                        /\ oid = _id x) by exact IH.
      destruct (Z.ltb_spec (doc_timestamp b) (doc_timestamp a)) as [Hlt|Hge].
      * cbn [In]. rewrite Hrest. split.
        -- intros [<-|(i & x & y & H)].
           ++ exists 0%nat, a, b. done.
           ++ exists (S i), x, y. done.
        -- intros ([|i] & x & y & H1 & H2 & H3 & H4).
           ++ left. injection H1 as <-. done.
           ++ right. exists i, x, y. done.
      * rewrite Hrest. split.
        -- intros (i & x & y & H). exists (S i), x, y. done.
        -- intros ([|i] & x & y & H1 & H2 & H3 & H4).
           ++ injection H1 as <-. injection H2 as <-. lia.
           ++ exists i, x, y. done.
Qed.

End InversionFacts.

Section OrderingAuditMore.
Import Calendar Py Mongo World Derived ListFacts OrderingFacts InversionFacts.

(** X13. For a collection that exists, [get_ordering_errors] reports,
    in [_id] order, the [_id] of every document whose successor in [_id]
    order has a smaller timestamp, and of no other; the comparison of the
    two sorted lists that guards the loop does not change the report. *)
Theorem get_ordering_errors_reports_inversions (self : Journal.t) (w : World)
        (c : string) (docs : list Doc) :
  colls (db w) !! c = Some docs ->
  exists report,
    Journal.get_ordering_errors self w !! c = Some report
    /\ report = inversions (sort_asc _id docs)
    /\ forall oid,
         In oid report
         <-> exists i a b,
               sort_asc _id docs !! i = Some a
               /\ sort_asc _id docs !! S i = Some b
               /\ doc_timestamp b < doc_timestamp a /\ oid = _id a.
Proof.
  intros Hc. exists (inversions (sort_asc _id docs)).
  rewrite get_ordering_errors_lookup, Hc. cbn [fmap option_fmap option_map].
  split; [by rewrite ordering_errors_of_inversions|]. split; [done|].
  apply inversions_In.
Qed.

Lemma get_ordering_errors_reports_inversions_witness :
  exists report,
    Journal.get_ordering_errors Journal.init Scenarios.ten_nine_eleven
      !! "WaterJournal"%string = Some report.
Proof.
  destruct (get_ordering_errors_reports_inversions
              Journal.init Scenarios.ten_nine_eleven "WaterJournal"
              (find (db Scenarios.ten_nine_eleven) "WaterJournal"))
    as (report & H & _); [vm_compute; reflexivity|].
  exists report. exact H.
Defined.

(** X14. The report of [get_ordering_errors] has one key for each
    collection that exists in the database and no other key. *)
Theorem get_ordering_errors_keys (self : Journal.t) (w : World) :
  dom (Journal.get_ordering_errors self w) = dom (colls (db w)).
Proof.
  apply set_eq. intros c.
  rewrite !elem_of_dom, get_ordering_errors_lookup. apply fmap_is_Some.
Qed.

(** X15. For a collection that exists, the report is empty exactly when
    the timestamps never decrease along the [_id] order. *)
Theorem get_ordering_errors_empty_iff (self : Journal.t) (w : World)
        (c : string) (docs : list Doc) :
  colls (db w) !! c = Some docs ->
  (Journal.get_ordering_errors self w !! c = Some []
   <-> Sorted Z.le (List.map doc_timestamp (sort_asc _id docs))).
Proof.
  intros Hc. rewrite get_ordering_errors_lookup, Hc.
  cbn [fmap option_fmap option_map].
  rewrite ordering_errors_of_inversions, <- inversions_nil_iff.
  split; [by intros [= ->] | by intros ->].
Qed.

Lemma get_ordering_errors_empty_iff_witness :
  Journal.get_ordering_errors Journal.init Scenarios.jan_1_and_jan_3
    !! "CutJournal"%string = Some [].
Proof.
  apply (get_ordering_errors_empty_iff
           Journal.init Scenarios.jan_1_and_jan_3 "CutJournal"
           (find (db Scenarios.jan_1_and_jan_3) "CutJournal")).
  - vm_compute. reflexivity.
  - vm_compute. repeat constructor; discriminate.
Defined.

End OrderingAuditMore.

(** ** More on the calendar and on the grouped sums *)

Module CalendarRanges.
Import Calendar.

Lemma civil_ranges (z : Z) :
  let '(y, m, d) := civil_from_days z in 1 <= m <= 12 /\ 1 <= d <= 31.
Proof.
  unfold civil_from_days.
  pose proof (Z.mod_pos_bound (z + 719468) 146097 ltac:(lia)) as Hb.
  set (doe := (z + 719468) mod 146097) in *.
  pose proof (CalendarFacts.doy_bound doe Hb) as Hd. cbv zeta in Hd.
  set (yoe := (doe - doe / 1460 + doe / 36524 - doe / 146096) / 365) in *.
  set (doy := doe - (365 * yoe + yoe / 4 - yoe / 100)) in *.
  cbv zeta.
  destruct (Z.ltb_spec ((5 * doy + 2) / 153) 10);
    (Z.div_mod_to_equations; lia).
Qed.

Lemma jan1_shape (y : Z) :
  days_from_civil y 1 1
  = (y - 1) / 400 * 146097
    + ((y - 1) mod 400 * 365 + (y - 1) mod 400 / 4 - (y - 1) mod 400 / 100
       + 306)
    - 719468.
Proof.
  unfold days_from_civil. change (1 <=? 2) with true. cbv iota zeta.
  change ((153 * (1 + 9) + 2) / 5) with 306. lia.
Qed.

(** A date is at most 365 days after the first of January of its year. *)
Lemma yday_range (y m d : Z) :
  1 <= m <= 12 -> 1 <= d <= 31 ->
  0 <= days_from_civil y m d - days_from_civil y 1 1 <= 365.
Proof.
  intros Hm Hd. rewrite jan1_shape. unfold days_from_civil.
  destruct (Z.leb_spec m 2).
  - Z.div_mod_to_equations. lia.
  - assert (Hmp : 0 <= (153 * (m - 3) + 2) / 5 <= 275)
      by (Z.div_mod_to_equations; lia).
    set (mp := (153 * (m - 3) + 2) / 5) in *. clearbody mp.
    pose proof (Z.mod_pos_bound y 400 ltac:(lia)) as By.
    pose proof (Z.mod_pos_bound (y - 1) 400 ltac:(lia)) as By1.
    assert (Hy : (y / 400 = (y - 1) / 400 /\ y mod 400 = (y - 1) mod 400 + 1)
                 \/ (y / 400 = (y - 1) / 400 + 1 /\ y mod 400 = 0
                     /\ (y - 1) mod 400 = 399))
      by (Z.div_mod_to_equations; lia).
    destruct Hy as [[E1 E2]|(E1 & E2 & E3)].
    + rewrite E1, E2. set (r := (y - 1) mod 400) in *. clearbody r.
      Z.div_mod_to_equations. lia.
    + rewrite E1, E2, E3. Z.div_mod_to_equations. lia.
Qed.

Lemma week_range (t : Py.datetime) : 0 <= Mongo.week t <= 53.
Proof.
  unfold Mongo.week.
  pose proof (CalendarFacts.days_from_civil_from_days (t / us_per_day)) as H.
  pose proof (civil_ranges (t / us_per_day)) as R.
  destruct (civil_from_days (t / us_per_day)) as [[y m] d].
  set (day := t / us_per_day) in *.
  pose proof (yday_range y m d ltac:(lia) ltac:(lia)) as Hy.
  rewrite H in Hy.
  Z.div_mod_to_equations. lia.
Qed.

End CalendarRanges.

Module RowFacts.
Import Calendar Py Mongo DBHelper World Derived Notions ListFacts GroupFacts AuditFacts.

Lemma same_day_eqb (t1 t2 : datetime) :
  parts_eqb (dateToParts t1) (dateToParts t2)
  = (t1 / us_per_day =? t2 / us_per_day).
Proof.
  destruct (Z.eqb_spec (t1 / us_per_day) (t2 / us_per_day)) as [E|Hne].
  - apply parts_eqb_eq. by apply dateToParts_eq_iff.
  - destruct (parts_eqb _ _) eqn:Ep; [|done].
    apply parts_eqb_eq, dateToParts_eq_iff in Ep. done.
Qed.

Section Rows.
Variables (collection : list Doc) (field : Doc -> option Q)
          (timestamp_field : Doc -> datetime).

Lemma sum_field_by_date_In (row : DayRow) :
  In row (sum_field_by_date collection field timestamp_field)
  <-> exists d, In d collection
                /\ row = mkDayRow (dateToParts (timestamp_field d)) (day_sum collection field timestamp_field d)
                                  (floor_day (timestamp_field d)).
Proof.
  unfold sum_field_by_date.
  set (key := fun d : Doc => dateToParts (timestamp_field d)).
  set (rows := group_sum parts_eqb key field collection).
  assert (Htotal : forall d t, In (key d, t) rows -> t = day_sum collection field timestamp_field d).
  { intros d t H.
    apply (group_sum_total parts_eqb parts_eqb_eq key field collection) in H.
    rewrite H. unfold day_sum. f_equal. apply List.filter_ext.
    intros d'. apply same_day_eqb. }
  rewrite List.in_map_iff. split.
  - intros ([p t] & <- & H).
    assert (Hp : In p (List.map fst rows))
      by (change p with (fst (p, t)); by apply List.in_map).
    apply (group_sum_In_key parts_eqb parts_eqb_eq) in Hp as (d & Hd & <-).
    exists d. split; [done|].
    rewrite (Htotal d t H). f_equal. apply dateFromParts_dateToParts.
  - intros (d & Hd & ->).
    assert (Hp : In (key d) (List.map fst rows))
      by (apply (group_sum_In_key parts_eqb parts_eqb_eq); eauto).
    apply List.in_map_iff in Hp as ([p t] & Hpt & H). simpl in Hpt. subst p.
    exists (key d, t). split; [|done].
    rewrite (Htotal d t H). f_equal. apply dateFromParts_dateToParts.
Qed.

Lemma sum_field_by_date_NoDup :
  List.NoDup
    (List.map day_date (sum_field_by_date collection field timestamp_field)).
Proof.
  unfold sum_field_by_date.
  set (key := fun d : Doc => dateToParts (timestamp_field d)).
  set (rows := group_sum parts_eqb key field collection).
  assert (Hnd : List.NoDup (List.map fst rows))
    by apply (group_sum_NoDup parts_eqb parts_eqb_eq).
  rewrite List.map_map.
  apply NoDup_map_NoDup_ForallPairs; [|by eapply NoDup_map_inv].
  intros [p1 t1] [p2 t2] H1 H2. simpl. intros E.
  assert (Hk : forall p t, In (p, t) rows -> exists d, key d = p).
  { intros p t H.
    assert (Hp : In p (List.map fst rows))
      by (change p with (fst (p, t)); by apply List.in_map).
    apply (group_sum_In_key parts_eqb parts_eqb_eq) in Hp as (d & _ & <-).
    eauto. }
  destruct (Hk _ _ H1) as (d1 & <-). destruct (Hk _ _ H2) as (d2 & <-).
  unfold key in *. rewrite !dateFromParts_dateToParts in E.
  assert (Hp : dateToParts (timestamp_field d1)
               = dateToParts (timestamp_field d2)).
  { apply dateToParts_eq_iff.
    rewrite <- (floor_day_div (timestamp_field d1)), E.
    apply floor_day_div. }
  rewrite Hp in H1 |- *. f_equal. eapply NoDup_fst_functional; eauto.
Qed.

Lemma sum_field_by_week_In (row : WeekRow) :
  In row (sum_field_by_week collection field timestamp_field)
  <-> exists d, In d collection
                /\ row = mkWeekRow (week (timestamp_field d)) (week_sum collection field timestamp_field d).
Proof.
  unfold sum_field_by_week.
  set (key := fun d : Doc => week (timestamp_field d)).
  set (rows := group_sum Z.eqb key field collection).
  assert (Htotal : forall d t, In (key d, t) rows -> t = week_sum collection field timestamp_field d).
  { intros d t H.
    by apply (group_sum_total Z.eqb Z.eqb_eq key field collection) in H. }
  rewrite List.in_map_iff. split.
  - intros ([k t] & <- & H).
    assert (Hp : In k (List.map fst rows))
      by (change k with (fst (k, t)); by apply List.in_map).
    apply (group_sum_In_key Z.eqb Z.eqb_eq) in Hp as (d & Hd & <-).
    exists d. split; [done|]. by rewrite (Htotal d t H).
  - intros (d & Hd & ->).
    assert (Hp : In (key d) (List.map fst rows))
      by (apply (group_sum_In_key Z.eqb Z.eqb_eq); eauto).
    apply List.in_map_iff in Hp as ([k t] & Hkt & H). simpl in Hkt. subst k.
    exists (key d, t). split; [|done]. by rewrite (Htotal d t H).
Qed.

Lemma sum_field_by_week_NoDup :
  List.NoDup
    (List.map week_id (sum_field_by_week collection field timestamp_field)).
Proof.
  unfold sum_field_by_week. rewrite List.map_map.
  erewrite List.map_ext; [apply (group_sum_NoDup Z.eqb Z.eqb_eq)|].
  by intros [k t].
Qed.

End Rows.

End RowFacts.

Section GroupedSums.
Import Calendar Py Mongo DBHelper World Derived Notions ListFacts GroupFacts AuditFacts.
Import RowFacts CalendarRanges.

(** X16. [sum_field_by_date] gives one row for each calendar day on which
    the collection has a document, and no other row: its [_id] is the
    year, month and day of that day, with the month from 1 to 12 and the
    day from 1 to 31, its [date] is the midnight that starts the day, and
    its [total] is the sum of the field over the documents of the day. *)
Theorem sum_field_by_date_rows (collection : list Doc)
        (field : Doc -> option Q) (timestamp_field : Doc -> datetime) :
  let rows := sum_field_by_date collection field timestamp_field in
  (forall row,
     In row rows
     <-> exists d, In d collection
                   /\ row = mkDayRow (dateToParts (timestamp_field d))
                                     (day_sum collection field timestamp_field d)
                                     (floor_day (timestamp_field d)))
  /\ List.NoDup (List.map day_date rows)
  /\ (forall row, In row rows ->
        let '(y, m, d) := day_id row in
        1 <= m <= 12 /\ 1 <= d <= 31
        /\ day_date row = days_from_civil y m d * us_per_day)
  /\ (rows = [] <-> collection = []).
Proof.
  intros rows. split; [apply sum_field_by_date_In|].
  split; [apply sum_field_by_date_NoDup|]. split.
  - intros row Hrow. apply sum_field_by_date_In in Hrow as (d & _ & ->).
    cbn [day_id day_date]. unfold dateToParts.
    pose proof (civil_ranges (timestamp_field d / us_per_day)) as R.
    pose proof (CalendarFacts.days_from_civil_from_days
                  (timestamp_field d / us_per_day)) as H.
    destruct (civil_from_days (timestamp_field d / us_per_day)) as [[y m] dd].
    split; [tauto|]. split; [tauto|]. by rewrite H.
  - split.
    + intros E. destruct collection as [|d l]; [done|]. exfalso.
      assert (H : In (mkDayRow (dateToParts (timestamp_field d))
                               (day_sum (d :: l) field timestamp_field d)
                               (floor_day (timestamp_field d))) rows)
        by (apply sum_field_by_date_In; exists d; split; [by left|done]).
      by rewrite E in H.
    + by intros ->.
Qed.

(** X17. [sum_field_by_week] gives one row for each week number in which
    the collection has a document, and no other row: its [_id] is that
    week number, from 0 to 53, and its [total] is the sum of the field over
    the documents of that week number, of whatever year. *)
Theorem sum_field_by_week_rows (collection : list Doc)
        (field : Doc -> option Q) (timestamp_field : Doc -> datetime) :
  let rows := sum_field_by_week collection field timestamp_field in
  (forall row,
     In row rows
     <-> exists d, In d collection
                   /\ row = mkWeekRow (week (timestamp_field d))
                                      (week_sum collection field timestamp_field d))
  /\ List.NoDup (List.map week_id rows)
  /\ (forall row, In row rows -> 0 <= week_id row <= 53)
  /\ (rows = [] <-> collection = []).
Proof.
  intros rows. split; [apply sum_field_by_week_In|].
  split; [apply sum_field_by_week_NoDup|]. split.
  - intros row Hrow. apply sum_field_by_week_In in Hrow as (d & _ & ->).
    apply week_range.
  - split.
    + intros E. destruct collection as [|d l]; [done|]. exfalso.
      assert (H : In (mkWeekRow (week (timestamp_field d))
                                (week_sum (d :: l) field timestamp_field d)) rows)
        by (apply sum_field_by_week_In; exists d; split; [by left|done]).
      by rewrite E in H.
    + by intros ->.
Qed.

End GroupedSums.

(** ** What the range audits flag *)

Module FlagFacts.
Import Calendar Py Mongo DBHelper World Derived Notions ListFacts GroupFacts.
Import AuditFacts WaterAuditFacts CutAuditFacts RowFacts.

Lemma day_of_inj (a b : Z) : a * us_per_day = b * us_per_day -> a = b.
Proof. unfold us_per_day. lia. Qed.

Section Water.
Variables (self : Journal.t) (w : World).

Let docs : list Doc := find (db w) (Journal.water_journal self).

Lemma existing_daily_iff e :
  In e (Journal.existing_daily_data self w)
  <-> exists d, In d docs
                /\ e = DailyData.mk (day_of d * us_per_day)
                                    (day_sum docs doc_water_amount
                                             doc_timestamp d).
Proof.
  unfold Journal.existing_daily_data. fold docs.
  rewrite sort_by_In, List.in_map_iff. split.
  - intros (row & <- & Hrow).
    apply sum_field_by_date_In in Hrow as (d & Hd & ->). eauto.
  - intros (d & Hd & ->).
    exists (mkDayRow (dateToParts (doc_timestamp d))
                     (day_sum docs doc_water_amount doc_timestamp d)
                     (floor_day (doc_timestamp d))).
    split; [done|]. apply sum_field_by_date_In. eauto.
Qed.

Variables (first : DailyData.t) (rest : list DailyData.t).
Hypothesis Hexisting : Journal.existing_daily_data self w = first :: rest.

Lemma daily_gaps_iff e :
  In e (daily_gaps first rest)
  <-> exists d1 d2 n,
        In d1 docs /\ In d2 docs /\ day_of d1 < n < day_of d2
        /\ (forall d, In d docs -> day_of d <> n)
        /\ e = DailyData.mk (n * us_per_day) 0%Q.
Proof.
  split.
  - intros He.
    destruct (existing_In_doc self w first rest Hexisting first ltac:(by left))
      as (d0 & Hd0 & E0).
    destruct (existing_In_doc self w first rest Hexisting _
                (last_In first rest first)) as (dl & Hdl & El).
    apply gaps_In in He as (i & Hi & Hn & ->).
    apply range_In in Hi. rewrite El, E0 in Hi. unfold days in Hi.
    rewrite <- Z.mul_sub_distr_r, Z.div_mul in Hi by done.
    assert (Eat : DailyData.date first + timedelta_days i
                  = (day_of d0 + i) * us_per_day)
      by (rewrite E0; unfold timedelta_days; lia).
    rewrite Eat in Hn |- *.
    exists d0, dl, (day_of d0 + i). split; [done|]. split; [done|].
    assert (Hi0 : i <> 0).
    { intros ->. apply Hn. rewrite Z.add_0_r, <- E0.
      apply List.in_map. by left. }
    split; [lia|]. split; [|done].
    intros d Hd E. apply Hn.
    destruct (doc_In_existing self w first rest Hexisting d Hd) as (e & He & Ee).
    rewrite <- E, <- Ee. by apply List.in_map.
  - intros (d1 & d2 & n & H1 & H2 & Hn & Hnone & ->).
    destruct (daily_cover self w first rest Hexisting d1 d2 n H1 H2 ltac:(lia))
      as (e & He & Edate & Eamount).
    apply List.in_app_or in He as [He|He].
    + exfalso.
      destruct (existing_In_doc self w first rest Hexisting e He)
        as (d & Hd & Ed).
      apply (Hnone d Hd). apply day_of_inj. congruence.
    + specialize (Eamount Hnone). destruct e as [date amount].
      simpl in Edate, Eamount. by subst.
Qed.

End Water.

Section Cut.
Variables (self : Journal.t) (w : World).

Let docs : list Doc := find (db w) (Journal.cut_journal self).

Lemma existing_week_iff e :
  In e (Journal.existing_week_data self w)
  <-> exists d, In d docs
                /\ e = WeeklyData.mk (week_of d)
                                     (week_sum docs doc_number_of_branches
                                               doc_timestamp d).
Proof.
  unfold Journal.existing_week_data. fold docs.
  rewrite sort_by_In, List.in_map_iff. split.
  - intros (row & <- & Hrow).
    apply sum_field_by_week_In in Hrow as (d & Hd & ->). eauto.
  - intros (d & Hd & ->).
    exists (mkWeekRow (week (doc_timestamp d))
                      (week_sum docs doc_number_of_branches doc_timestamp d)).
    split; [done|]. apply sum_field_by_week_In. eauto.
Qed.

Variables (first : WeeklyData.t) (rest : list WeeklyData.t).
Hypothesis Hexisting : Journal.existing_week_data self w = first :: rest.

Lemma weekly_gaps_iff e :
  In e (weekly_gaps first rest)
  <-> exists d1 d2 n,
        In d1 docs /\ In d2 docs /\ week_of d1 < n < week_of d2
        /\ (forall d, In d docs -> week_of d <> n)
        /\ e = WeeklyData.mk n 0%Q.
Proof.
  split.
  - intros He.
    destruct (week_In_doc self w first rest Hexisting first ltac:(by left))
      as (d0 & Hd0 & E0).
    destruct (week_In_doc self w first rest Hexisting _
                (last_In first rest first)) as (dl & Hdl & El).
    apply gaps_In in He as (n & Hi & Hn & ->).
    apply range_In in Hi. rewrite El, E0 in Hi.
    exists d0, dl, n. split; [done|]. split; [done|].
    assert (Hn0 : n <> week_of d0).
    { intros ->. apply Hn. rewrite <- E0. apply List.in_map. by left. }
    split; [lia|]. split; [|done].
    intros d Hd E. apply Hn.
    destruct (doc_In_week self w first rest Hexisting d Hd) as (e & He & Ee).
    rewrite <- E, <- Ee. by apply List.in_map.
  - intros (d1 & d2 & n & H1 & H2 & Hn & Hnone & ->).
    destruct (weekly_cover self w first rest Hexisting d1 d2 n H1 H2 ltac:(lia))
      as (e & He & Eweek & Eamount).
    apply List.in_app_or in He as [He|He].
    + exfalso.
      destruct (week_In_doc self w first rest Hexisting e He) as (d & Hd & Ed).
      apply (Hnone d Hd). congruence.
    + specialize (Eamount Hnone). destruct e as [week_number amount].
      simpl in Eweek, Eamount. by subst.
Qed.

End Cut.

End FlagFacts.

Section Flags.
Import Calendar Py Mongo DBHelper World Derived Notions ListFacts GroupFacts.
Import AuditFacts WaterAuditFacts CutAuditFacts RowFacts FlagFacts.

(** X18. When [get_water_errors] returns, a record is in its result
    exactly when it is either a day that has entries, with the total of its
    entries, this total lying outside [1, 2], or a day without entries that
    lies between two days that have some, with amount 0: every such missing
    day is reported. *)
Theorem get_water_errors_flags (w : World) (errors : list DailyData.t) :
  Journal.get_water_errors Journal.init w = Ok errors ->
  forall e,
    In e errors
    <-> (exists d,
           In d (find (db w) "WaterJournal")
           /\ e = DailyData.mk
                    (day_of d * us_per_day)
                    (day_sum (find (db w) "WaterJournal")
                             doc_water_amount doc_timestamp d)
           /\ Journal.out_of_range 1 2 (DailyData.amount e) = true)
        \/ (exists d1 d2 n,
              In d1 (find (db w) "WaterJournal")
              /\ In d2 (find (db w) "WaterJournal")
              /\ day_of d1 < n < day_of d2
              /\ (forall d, In d (find (db w) "WaterJournal") -> day_of d <> n)
              /\ e = DailyData.mk (n * us_per_day) 0%Q).
Proof.
  rewrite get_water_errors_eq. cbv zeta.
  destruct (Journal.existing_daily_data Journal.init w) as [|first rest] eqn:E;
    [discriminate|].
  rewrite <- E at 1. intros [= <-] e.
  rewrite List.in_app_iff, !List.filter_In.
  rewrite (existing_daily_iff Journal.init w).
  rewrite (daily_gaps_iff Journal.init w first rest E).
  change (Journal.water_journal Journal.init) with "WaterJournal"%string.
  cbn [Journal.min_water Journal.max_water Journal.init].
  split.
  - intros [[(d & Hd & ->) Hbad]|[H _]]; [left; eauto | by right].
  - intros [(d & Hd & -> & Hbad)|H]; [left; eauto|].
    right. split; [exact H|].
    destruct H as (d1 & d2 & n & _ & _ & _ & _ & ->). reflexivity.
Qed.

Lemma get_water_errors_flags_witness :
  In (DailyData.mk (19724 * us_per_day) 0%Q)
     [DailyData.mk (mk_datetime 2024 1 3 0 0 0 0) 5%Q;
      DailyData.mk (mk_datetime 2024 1 2 0 0 0 0) 0%Q].
Proof.
  apply (get_water_errors_flags Scenarios.jan_3_flooded);
    [vm_compute; reflexivity|].
  right.
  exists (mkDoc 0 (Scenarios.water_entry (mk_datetime 2024 1 1 8 30 0 0) 1.5%Q)),
         (mkDoc 1 (Scenarios.water_entry (mk_datetime 2024 1 3 8 30 0 0) 5%Q)),
         19724.
  split; [vm_compute; tauto|]. split; [vm_compute; tauto|].
  split; [vm_compute; split; reflexivity|]. split; [|reflexivity].
  intros d Hd. vm_compute in Hd.
  destruct Hd as [<-|[<-|[]]]; vm_compute; discriminate.
Defined.

(** X19. When [get_cut_errors] returns, a record is in its result exactly
    when it is either a week number that has entries, with the total of
    its entries, this total lying outside [4, 8], or a week number without
    entries that lies between two week numbers that have some, with amount
    0: every such missing week is reported. *)
Theorem get_cut_errors_flags (w : World) (wrong_weeks : list WeeklyData.t) :
  Journal.get_cut_errors Journal.init w = Ok wrong_weeks ->
  forall e,
    In e wrong_weeks
    <-> (exists d,
           In d (find (db w) "CutJournal")
           /\ e = WeeklyData.mk
                    (week_of d)
                    (week_sum (find (db w) "CutJournal")
                              doc_number_of_branches doc_timestamp d)
           /\ Journal.out_of_range 4 8 (WeeklyData.amount e) = true)
        \/ (exists d1 d2 n,
              In d1 (find (db w) "CutJournal")
              /\ In d2 (find (db w) "CutJournal")
              /\ week_of d1 < n < week_of d2
              /\ (forall d, In d (find (db w) "CutJournal") -> week_of d <> n)
              /\ e = WeeklyData.mk n 0%Q).
Proof.
  rewrite get_cut_errors_eq. cbv zeta.
  destruct (Journal.existing_week_data Journal.init w) as [|first rest] eqn:E;
    [discriminate|].
  rewrite <- E at 1. intros [= <-] e.
  rewrite List.in_app_iff, !List.filter_In.
  rewrite (existing_week_iff Journal.init w).
  rewrite (weekly_gaps_iff Journal.init w first rest E).
  change (Journal.cut_journal Journal.init) with "CutJournal"%string.
  cbn [Journal.min_branches Journal.max_branches Journal.init].
  split.
  - intros [[(d & Hd & ->) Hbad]|[H _]]; [left; eauto | by right].
  - intros [(d & Hd & -> & Hbad)|H]; [left; eauto|].
    right. split; [exact H|].
    destruct H as (d1 & d2 & n & _ & _ & _ & _ & ->). reflexivity.
Qed.

Lemma get_cut_errors_flags_witness :
  In (WeeklyData.mk 2 0%Q) [WeeklyData.mk 2 0%Q; WeeklyData.mk 3 0%Q].
Proof.
  apply (get_cut_errors_flags Scenarios.jan_1_and_jan_3);
    [vm_compute; reflexivity|].
  right.
  exists (mkDoc 3 (Scenarios.cut_entry (mk_datetime 2024 1 8 9 0 0 0) 8%Q)),
         (mkDoc 4 (Scenarios.cut_entry (mk_datetime 2024 1 29 9 0 0 0) 8%Q)),
         2.
  split; [vm_compute; tauto|]. split; [vm_compute; tauto|].
  split; [vm_compute; split; reflexivity|]. split; [|reflexivity].
  intros d Hd. vm_compute in Hd.
  destruct Hd as [<-|[<-|[]]]; vm_compute; discriminate.
Defined.

End Flags.

(** ** More on reporting *)

Module ReportFacts.
Import Py Mongo World Derived ListFacts.




End ReportFacts.

Section ReportingMore.
Import Py Mongo World Derived ListFacts ReportFacts.

Variable str : Doc -> string.


End ReportingMore.

Section ReportingWitness.
Import Py Mongo World.


End ReportingWitness.

Section CutRuns.
Import Calendar Py Mongo DBHelper World Derived Notions ListFacts AuditFacts.
Import WaterAuditFacts CutAuditFacts.



End CutRuns.
